(** * Authentication and authorization core of the Hospital Management API

    A shallow embedding of [src/main.py]: the password hasher
    ([hash_password], [verify_password]), the session issuer
    ([create_token]), the session resolver ([get_user_from_token]), the
    access gate ([require_roles]), the endpoints that reach them
    ([signup], [login], [me]) and the protected endpoints behind the gate
    (staff, patients, appointments, the doctor's schedule, the report).

    Conventions of the embedding.
    - A Python [str] is a [string]; each character stands for the code
      point of the same number, so the model covers the strings whose code
      points are below 256 (this is every string an HTTP header can carry).
    - A [datetime] is an instant, a [Z] counting microseconds.
    - A stored document is a record.  A field the code reads with [d[k]] is
      mandatory; a field it reads with [d.get(k)] is an [option], [None]
      standing for a document without that key.
    - The handlers run in a state-and-exception monad over the two
      collections they touch and the three sources of outside input (the
      clock, the random token generator, the store's identifier generator).

    The file has three parts: the embedding of the code, the vocabulary the
    properties are stated in (with the concrete worlds they are tried on),
    and the properties. *)

From Stdlib Require Import ZArith List String Ascii Bool Lia.
Import ListNotations.
Local Open Scope string_scope.
Local Open Scope Z_scope.

(** ** Python's [str] operations used by the handlers *)

Module PyStr.

(** Code point of a character. *)
Definition ord (c : ascii) : Z := Z.of_N (N_of_ascii c).

Definition chr (n : Z) : ascii := ascii_of_N (Z.to_N n).

(** [str.isspace] on one character, for code points below 256: the
    characters [str.split()] treats as separators. *)
Definition isspace (c : ascii) : bool :=
  let n := ord c in
  ((9 <=? n) && (n <=? 13)) || ((28 <=? n) && (n <=? 32))
  || (n =? 133) || (n =? 160).

(** [str.lower] on one character, for code points below 256: the ASCII
    capitals and the Latin-1 capitals (all of 192..222 but the
    multiplication sign 215) move up by 32. *)
Definition lower_char (c : ascii) : ascii :=
  let n := ord c in
  if ((65 <=? n) && (n <=? 90))
     || ((192 <=? n) && (n <=? 222) && negb (n =? 215))
  then chr (n + 32) else c.

Fixpoint lower (s : string) : string :=
  match s with
  | EmptyString => EmptyString
  | String c s' => String (lower_char c) (lower s')
  end.

(** [s.split()] with no argument: the maximal runs of characters that are
    not whitespace, in order.  [cur] is the run being read. *)
Fixpoint split_from (cur : string) (s : string) : list string :=
  match s with
  | EmptyString => if (cur =? "")%string then [] else [cur]
  | String c s' =>
      if isspace c
      then (if (cur =? "")%string then split_from "" s'
            else cur :: split_from "" s')
      else split_from (cur ++ String c "") s'
  end.

Definition split (s : string) : list string := split_from "" s.

(** [s.encode("utf-8")] as a list of byte values: one byte below 128, two
    bytes from 128 to 255. *)
Definition encode_char (c : ascii) : list Z :=
  let n := ord c in
  if n <? 128 then [n]
  else [Z.lor 192 (Z.shiftr n 6); Z.lor 128 (Z.land n 63)].

Fixpoint encode (s : string) : list Z :=
  match s with
  | EmptyString => []
  | String c s' => encode_char c ++ encode s'
  end.

(** Truth value of a [str]: false exactly for the empty string. *)
Definition truthy (s : string) : bool := negb (s =? "")%string.

End PyStr.

(** ** [hashlib.sha256]: SHA-256 as FIPS 180-4 defines it

    Words are integers below [2^32]; a message is the list of its bytes. *)

Module Hashlib.

Definition mask32 : Z := 4294967295.

Definition add32 (x y : Z) : Z := Z.land (x + y) mask32.

Definition rotr (n x : Z) : Z :=
  Z.lor (Z.shiftr x n) (Z.land (Z.shiftl x (32 - n)) mask32).

Definition shr (n x : Z) : Z := Z.shiftr x n.

Definition not32 (x : Z) : Z := Z.lxor x mask32.

Definition Ch (x y z : Z) : Z :=
  Z.lxor (Z.land x y) (Z.land (not32 x) z).

Definition Maj (x y z : Z) : Z :=
  Z.lxor (Z.lxor (Z.land x y) (Z.land x z)) (Z.land y z).

Definition Sigma0 (x : Z) : Z :=
  Z.lxor (Z.lxor (rotr 2 x) (rotr 13 x)) (rotr 22 x).

Definition Sigma1 (x : Z) : Z :=
  Z.lxor (Z.lxor (rotr 6 x) (rotr 11 x)) (rotr 25 x).

Definition sigma0 (x : Z) : Z :=
  Z.lxor (Z.lxor (rotr 7 x) (rotr 18 x)) (shr 3 x).

Definition sigma1 (x : Z) : Z :=
  Z.lxor (Z.lxor (rotr 17 x) (rotr 19 x)) (shr 10 x).

(** The first 64 primes. *)
Definition primes : list Z :=
  [2; 3; 5; 7; 11; 13; 17; 19; 23; 29; 31; 37; 41; 43; 47; 53;
   59; 61; 67; 71; 73; 79; 83; 89; 97; 101; 103; 107; 109; 113; 127; 131;
   137; 139; 149; 151; 157; 163; 167; 173; 179; 181; 191; 193; 197; 199;
   211; 223; 227; 229; 233; 239; 241; 251; 257; 263; 269; 271; 277; 281;
   283; 293; 307; 311].

(** The integer cube root, found from the highest of [bits] bits down:
    [r] is kept the largest value so far whose cube is at most [n]. *)
Fixpoint cube_root_from (bits : nat) (n r : Z) : Z :=
  match bits with
  | O => r
  | S bits' =>
      let r' := r + 2 ^ Z.of_nat bits' in
      if r' * r' * r' <=? n then cube_root_from bits' n r'
      else cube_root_from bits' n r
  end.

(** The first 32 bits of the fractional part of the cube root, and of the
    square root, of [p]. *)
Definition cube_root_fraction (p : Z) : Z :=
  Z.land (cube_root_from 36 (p * 2 ^ 96) 0) mask32.

Definition square_root_fraction (p : Z) : Z :=
  Z.land (Z.sqrt (p * 2 ^ 64)) mask32.

(** The round constants: section 4.2.2 of the standard. *)
Definition K : list Z := Eval vm_compute in map cube_root_fraction primes.

(** The eight working words. *)
Record state : Type := State {
  ha : Z; hb : Z; hc : Z; hd : Z; he : Z; hf : Z; hg : Z; hh : Z
}.

(** The initial hash value: section 5.3.3 of the standard. *)
Definition H0 : state :=
  Eval vm_compute in
    let h i := square_root_fraction (nth i primes 0) in
    State (h 0%nat) (h 1%nat) (h 2%nat) (h 3%nat)
          (h 4%nat) (h 5%nat) (h 6%nat) (h 7%nat).

(** The first [n] big-endian 32-bit words of a byte sequence. *)
Fixpoint be_words (n : nat) (bs : list Z) : list Z :=
  match n with
  | O => []
  | S n' =>
      let b i := nth i bs 0 in
      (Z.lor (Z.lor (Z.shiftl (b 0%nat) 24) (Z.shiftl (b 1%nat) 16))
             (Z.lor (Z.shiftl (b 2%nat) 8) (b 3%nat)))
      :: be_words n' (skipn 4 bs)
  end.

(** Message schedule: [n] more words appended to the ones already there. *)
Fixpoint schedule (n : nat) (w : list Z) : list Z :=
  match n with
  | O => w
  | S n' =>
      let t := List.length w in
      let at_ i := nth (t - i) w 0 in
      schedule n'
        (w ++ [add32 (add32 (sigma1 (at_ 2%nat)) (at_ 7%nat))
                     (add32 (sigma0 (at_ 15%nat)) (at_ 16%nat))])
  end.

Definition round (s : state) (kw : Z * Z) : state :=
  let t1 := add32 (add32 (add32 (hh s) (Sigma1 (he s)))
                         (add32 (Ch (he s) (hf s) (hg s)) (fst kw)))
                  (snd kw) in
  let t2 := add32 (Sigma0 (ha s)) (Maj (ha s) (hb s) (hc s)) in
  State (add32 t1 t2) (ha s) (hb s) (hc s)
        (add32 (hd s) t1) (he s) (hf s) (hg s).

Definition add_state (s t : state) : state :=
  State (add32 (ha s) (ha t)) (add32 (hb s) (hb t))
        (add32 (hc s) (hc t)) (add32 (hd s) (hd t))
        (add32 (he s) (he t)) (add32 (hf s) (hf t))
        (add32 (hg s) (hg t)) (add32 (hh s) (hh t)).

(** One 64-byte block folded into the hash value. *)
Definition compress (s : state) (block : list Z) : state :=
  let w := schedule 48 (be_words 16 block) in
  add_state s (fold_left round (combine K w) s).

Fixpoint blocks (n : nat) (bs : list Z) (s : state) : state :=
  match n with
  | O => s
  | S n' => blocks n' (skipn 64 bs) (compress s (firstn 64 bs))
  end.

(** The eight bytes of a 64-bit big-endian integer. *)
Definition be64 (n : Z) : list Z :=
  map (fun i => Z.land (Z.shiftr n (8 * i)) 255) [7; 6; 5; 4; 3; 2; 1; 0].

(** Padding: a one bit, zeros up to 56 modulo 64, the bit length. *)
Definition pad (msg : list Z) : list Z :=
  let len := Z.of_nat (List.length msg) in
  msg ++ [128] ++ repeat 0 (Z.to_nat ((55 - len) mod 64)) ++ be64 (8 * len).

Definition digest (msg : list Z) : state :=
  let p := pad msg in
  blocks (Nat.div (List.length p) 64) p H0.

Definition hex_digit (n : Z) : ascii :=
  if n <? 10 then PyStr.chr (48 + n) else PyStr.chr (87 + n).

Definition nibble (w i : Z) : ascii :=
  hex_digit (Z.land (Z.shiftr w (4 * i)) 15).

Definition hex_word (w : Z) (rest : string) : string :=
  String (nibble w 7) (String (nibble w 6) (String (nibble w 5)
  (String (nibble w 4) (String (nibble w 3) (String (nibble w 2)
  (String (nibble w 1) (String (nibble w 0) rest))))))).

Definition hex_state (s : state) : string :=
  hex_word (ha s) (hex_word (hb s) (hex_word (hc s) (hex_word (hd s)
  (hex_word (he s) (hex_word (hf s) (hex_word (hg s)
  (hex_word (hh s) ""))))))).

(** [sha256(data).hexdigest()] *)
Definition sha256_hexdigest (data : list Z) : string :=
  hex_state (digest data).

End Hashlib.

(** ** Helper functions of [main.py] *)

Definition hash_password (password : string) : string :=
  Hashlib.sha256_hexdigest (PyStr.encode password).

Definition verify_password (password hashed : string) : bool :=
  (hash_password password =? hashed)%string.

(** ** Exceptions and results *)

Inductive Exn : Type :=
| HTTPException (status_code : Z) (detail : string)
| ValidationError (fields : list string).

Inductive Result (A : Type) : Type :=
| Ok (a : A)
| Raise (e : Exn).
Arguments Ok {A} a.
Arguments Raise {A} e.

(** The error kinds of the specification, as the exceptions the code raises. *)
Definition MissingCredential : Exn :=
  HTTPException 401 "Missing Authorization header".
Definition MalformedCredential : Exn :=
  HTTPException 401 "Invalid Authorization header".
Definition InvalidToken : Exn := HTTPException 401 "Invalid token".
Definition ExpiredToken : Exn := HTTPException 401 "Token expired".
Definition OrphanedToken : Exn :=
  HTTPException 401 "User not found for token".
Definition Forbidden : Exn := HTTPException 403 "Forbidden for this role".
Definition DuplicateEmail : Exn :=
  HTTPException 400 "Email already registered".
Definition InvalidCredentials : Exn :=
  HTTPException 401 "Invalid email or password".
Definition InactiveAccount : Exn := HTTPException 403 "User is inactive".

(** ** Documents *)

(** The value of an [_id] or [user_id] field: a string, or an ObjectId,
    which is carried by its 24 hexadecimal digits. *)
Inductive IdValue : Type :=
| IdStr (s : string)
| IdOid (hex : string).

Definition IdValue_eqb (a b : IdValue) : bool :=
  match a, b with
  | IdStr s, IdStr t => (s =? t)%string
  | IdOid s, IdOid t => (s =? t)%string
  | _, _ => false
  end.

(** [str(v)] *)
Definition py_str (v : IdValue) : string :=
  match v with IdStr s => s | IdOid hex => hex end.

Definition is_hex_digit (c : ascii) : bool :=
  let n := PyStr.ord c in
  ((48 <=? n) && (n <=? 57)) || ((97 <=? n) && (n <=? 102))
  || ((65 <=? n) && (n <=? 70)).

Fixpoint all_hex (s : string) : bool :=
  match s with
  | EmptyString => true
  | String c s' => is_hex_digit c && all_hex s'
  end.

(** [bson.ObjectId(v)]: a copy of an ObjectId, the ObjectId a string of 24
    hexadecimal digits names, and an exception ([None] here) otherwise. *)
Definition ObjectId (v : IdValue) : option IdValue :=
  match v with
  | IdOid hex => Some (IdOid hex)
  | IdStr s =>
      if (Nat.eqb (String.length s) 24) && all_hex s
      then Some (IdOid (PyStr.lower s)) else None
  end.

(** A document of the [user_auth] collection.  [_id] is always there: the
    store assigns it. *)
Module UserDoc.
Record t : Type := Build {
  _id : IdValue;
  name : option string;
  email : option string;
  role : option string;
  password_hash : option string;
  is_active : option bool;
  created_at : option Z;
  updated_at : option Z
}.

(** [d.get(k, default)] for the two fields read with a default. *)
Definition get_password_hash (d : t) (default : string) : string :=
  match password_hash d with Some h => h | None => default end.

Definition get_is_active (d : t) (default : bool) : bool :=
  match is_active d with Some b => b | None => default end.
End UserDoc.

(** A document of the [token] collection. *)
Module TokenDoc.
Record t : Type := Build {
  _id : IdValue;
  token : string;
  user_id : IdValue;
  role : option string;
  expires_at : option Z;
  created_at : Z
}.
End TokenDoc.

(** ** Request and response models *)

Inductive Role : Type := admin | doctor | receptionist | patient.

Definition Role_str (r : Role) : string :=
  match r with
  | admin => "admin"
  | doctor => "doctor"
  | receptionist => "receptionist"
  | patient => "patient"
  end.

Module SignupRequest.
Record t : Type := Build {
  name : string;
  email : string;
  password : string;
  role : Role
}.
End SignupRequest.

Module LoginRequest.
Record t : Type := Build {
  email : string;
  password : string
}.
End LoginRequest.

Module AuthResponse.
Record t : Type := Build {
  token : string;
  role : string;
  name : string;
  email : string
}.

Definition missing (field : string) (v : option string) : list string :=
  match v with Some _ => [] | None => [field] end.

(** The constructor with the validation of the response model: every field
    is a required string, and the fields that hold [None] are reported
    together. *)
Definition make (token role name email : option string) : Result t :=
  match token, role, name, email with
  | Some t_, Some r, Some n, Some e => Ok (Build t_ r n e)
  | _, _, _, _ =>
      Raise (ValidationError (missing "token" token ++ missing "role" role
                              ++ missing "name" name ++ missing "email" email))
  end.
End AuthResponse.

(** The normalized identity [get_user_from_token] returns. *)
Module UserOut.
Record t : Type := Build {
  id : string;
  name : option string;
  email : option string;
  role : option string;
  is_active : bool
}.
End UserOut.

(** ** The world the handlers run in *)

(** The two collections and the outside inputs.  [clock], [entropy] and
    [new_oid] list what the successive calls of [datetime.now],
    [secrets.token_urlsafe] and the store's identifier generator return;
    the three counters say how many of each have been made. *)
Record World : Type := mkWorld {
  db_user_auth : list UserDoc.t;
  db_token : list TokenDoc.t;
  clock : nat -> Z;
  clock_reads : nat;
  entropy : nat -> string;
  entropy_reads : nat;
  new_oid : nat -> string;
  oid_reads : nat
}.

Definition M (A : Type) : Type := World -> Result A * World.

Definition ret {A} (a : A) : M A := fun w => (Ok a, w).

Definition raise {A} (e : Exn) : M A := fun w => (Raise e, w).

Definition bind {A B} (m : M A) (k : A -> M B) : M B :=
  fun w =>
    match m w with
    | (Ok a, w') => k a w'
    | (Raise e, w') => (Raise e, w')
    end.

Definition lift {A} (r : Result A) : M A := fun w => (r, w).

Notation "x <- m ;; k" := (bind m (fun x => k))
  (at level 61, m at next level, right associativity).

(** [datetime.now(timezone.utc)] *)
Definition datetime_now : M Z :=
  fun w =>
    (Ok (clock w (clock_reads w)),
     mkWorld (db_user_auth w) (db_token w) (clock w) (S (clock_reads w))
             (entropy w) (entropy_reads w) (new_oid w) (oid_reads w)).

(** [secrets.token_urlsafe(32)] *)
Definition token_urlsafe : M string :=
  fun w =>
    (Ok (entropy w (entropy_reads w)),
     mkWorld (db_user_auth w) (db_token w) (clock w) (clock_reads w)
             (entropy w) (S (entropy_reads w)) (new_oid w) (oid_reads w)).

(** [timedelta(days=7)] in microseconds. *)
Definition seven_days : Z := 7 * 24 * 3600 * 1000000.

(** Modelled from the spec: the storage collaborator (module [database],
    which [main.py] imports), with the contract of section 6.  [findOne]
    returns the first stored document whose field equals the value asked
    for, or nothing; it writes nothing.  [insertOne] gives the document a
    generated identifier, stores it after the documents already there and
    returns the identifier.  Storage failures are left out: every call
    answers. *)
Module Store.

Definition has_email (e : string) (d : UserDoc.t) : bool :=
  match UserDoc.email d with
  | Some e' => (e' =? e)%string
  | None => false
  end.

Definition has_id (v : IdValue) (d : UserDoc.t) : bool :=
  IdValue_eqb (UserDoc._id d) v.

Definition has_token (t : string) (d : TokenDoc.t) : bool :=
  (TokenDoc.token d =? t)%string.

(** [db["user_auth"].find_one({"email": e})] *)
Definition find_user_by_email (e : string) : M (option UserDoc.t) :=
  fun w => (Ok (find (has_email e) (db_user_auth w)), w).

(** [db["user_auth"].find_one({"_id": v})] *)
Definition find_user_by_id (v : IdValue) : M (option UserDoc.t) :=
  fun w => (Ok (find (has_id v) (db_user_auth w)), w).

(** [db["token"].find_one({"token": t})] *)
Definition find_token (t : string) : M (option TokenDoc.t) :=
  fun w => (Ok (find (has_token t) (db_token w)), w).

(** [db["user_auth"].insert_one(doc)] *)
Definition insert_user (doc : IdValue -> UserDoc.t) : M IdValue :=
  fun w =>
    let oid := IdOid (new_oid w (oid_reads w)) in
    (Ok oid,
     mkWorld (db_user_auth w ++ [doc oid]) (db_token w)
             (clock w) (clock_reads w) (entropy w) (entropy_reads w)
             (new_oid w) (S (oid_reads w))).

(** [db["token"].insert_one(doc)] *)
Definition insert_token (doc : IdValue -> TokenDoc.t) : M IdValue :=
  fun w =>
    let oid := IdOid (new_oid w (oid_reads w)) in
    (Ok oid,
     mkWorld (db_user_auth w) (db_token w ++ [doc oid])
             (clock w) (clock_reads w) (entropy w) (entropy_reads w)
             (new_oid w) (S (oid_reads w))).

End Store.

(** ** Session issuer *)

Definition create_token (user_id : string) (role : option string) : M string :=
  token <- token_urlsafe ;;
  now <- datetime_now ;;
  let expires_at := now + seven_days in
  created <- datetime_now ;;
  _ <- Store.insert_token (fun oid =>
         TokenDoc.Build oid token (IdStr user_id) role
                        (Some expires_at) created) ;;
  ret token.

(** ** Session resolver *)

(** Lines 54-80 of [main.py]: what [get_user_from_token] does once it holds
    the token string. *)
Definition resolve_token (token : string) : M UserOut.t :=
  tok <- Store.find_token token ;;
  match tok with
  | None => raise InvalidToken
  | Some tok =>
      expired <- match TokenDoc.expires_at tok with
                 | None => ret false
                 | Some expires_at =>
                     now <- datetime_now ;; ret (expires_at <? now)
                 end ;;
      if expired : bool then raise ExpiredToken
      else
        user <- Store.find_user_by_id (TokenDoc.user_id tok) ;;
        user <- match user with
                | None => Store.find_user_by_id (TokenDoc.user_id tok)
                | Some _ => ret user
                end ;;
        user <- match user with
                | None =>
                    match ObjectId (TokenDoc.user_id tok) with
                    | Some oid => Store.find_user_by_id oid
                    | None => ret None
                    end
                | Some _ => ret user
                end ;;
        match user with
        | None => raise OrphanedToken
        | Some user =>
            ret (UserOut.Build
                   (py_str (UserDoc._id user))
                   (UserDoc.name user)
                   (UserDoc.email user)
                   (UserDoc.role user)
                   (UserDoc.get_is_active user true))
        end
  end.

Definition get_user_from_token (authorization : option string) : M UserOut.t :=
  match authorization with
  | None => raise MissingCredential
  | Some authorization =>
      if negb (PyStr.truthy authorization) then raise MissingCredential
      else
        let parts := PyStr.split authorization in
        if negb (Nat.eqb (List.length parts) 2)
           || negb (PyStr.lower (nth 0 parts "") =? "bearer")%string
        then raise MalformedCredential
        else
          let token := nth 1 parts "" in
          resolve_token token
  end.

(** ** Access gate *)

(** [role in allowed], for a role that may be [None]. *)
Definition role_in (role : option string) (allowed : list string) : bool :=
  match role with
  | Some r => existsb (String.eqb r) allowed
  | None => false
  end.

(** [require_roles(allowed)] is the inner function [dep], applied to the
    identity the resolver returned. *)
Definition require_roles (allowed : list string) (user : UserOut.t)
  : Result UserOut.t :=
  if negb (role_in (UserOut.role user) allowed)
  then Raise Forbidden
  else Ok user.

(** [Depends(require_roles(allowed))]: the resolver, then the gate. *)
Definition guarded (allowed : list string) (authorization : option string)
  : M UserOut.t :=
  user <- get_user_from_token authorization ;;
  lift (require_roles allowed user).

(** ** Authentication endpoints *)

Definition signup (payload : SignupRequest.t) : M AuthResponse.t :=
  existing <- Store.find_user_by_email
                (PyStr.lower (SignupRequest.email payload)) ;;
  match existing with
  | Some _ => raise DuplicateEmail
  | None =>
      created <- datetime_now ;;
      updated <- datetime_now ;;
      inserted_id <- Store.insert_user (fun oid =>
        UserDoc.Build oid
          (Some (SignupRequest.name payload))
          (Some (PyStr.lower (SignupRequest.email payload)))
          (Some (Role_str (SignupRequest.role payload)))
          (Some (hash_password (SignupRequest.password payload)))
          (Some true)
          (Some created)
          (Some updated)) ;;
      let user_id := py_str inserted_id in
      token <- create_token user_id
                 (Some (Role_str (SignupRequest.role payload))) ;;
      lift (AuthResponse.make
              (Some token)
              (Some (Role_str (SignupRequest.role payload)))
              (Some (SignupRequest.name payload))
              (Some (SignupRequest.email payload)))
  end.

Definition login (payload : LoginRequest.t) : M AuthResponse.t :=
  user <- Store.find_user_by_email
            (PyStr.lower (LoginRequest.email payload)) ;;
  match user with
  | None => raise InvalidCredentials
  | Some user =>
      if negb (verify_password (LoginRequest.password payload)
                 (UserDoc.get_password_hash user ""))
      then raise InvalidCredentials
      else if negb (UserDoc.get_is_active user true)
      then raise InactiveAccount
      else
        token <- create_token (py_str (UserDoc._id user))
                   (UserDoc.role user) ;;
        lift (AuthResponse.make
                (Some token)
                (UserDoc.role user)
                (UserDoc.name user)
                (UserDoc.email user))
  end.

(** [GET /auth/me]: the resolved identity, as it is. *)
Definition me (authorization : option string) : M UserOut.t :=
  user <- get_user_from_token authorization ;;
  ret user.

(** ** Records behind the protected endpoints *)

(** A stored document: the identifier the store gave it and its other
    fields.  A listed item: the same fields with the identifier as a string
    under [id] (the handlers pop [_id] and add [id]). *)
Module Doc.
Record stored (A : Type) : Type := Stored {
  _id : IdValue;
  body : A
}.
Arguments Stored {A} _ _.
Arguments _id {A} _.
Arguments body {A} _.

Record listed (A : Type) : Type := Listed {
  id : string;
  item : A
}.
Arguments Listed {A} _ _.
Arguments id {A} _.
Arguments item {A} _.

(** [it["id"] = str(it.pop("_id"))] *)
Definition view {A} (d : stored A) : listed A :=
  Listed (py_str (_id d)) (body d).
End Doc.

Inductive StaffRole : Type :=
| staff_doctor | staff_nurse | staff_admin | staff_receptionist.

Definition StaffRole_str (r : StaffRole) : string :=
  match r with
  | staff_doctor => "doctor"
  | staff_nurse => "nurse"
  | staff_admin => "admin"
  | staff_receptionist => "receptionist"
  end.

Module StaffCreate.
Record t : Type := Build {
  name : string;
  email : string;
  role : StaffRole;
  department : option string;
  phone : option string;
  is_active : bool
}.
End StaffCreate.

Module PatientCreate.
Record t : Type := Build {
  name : string;
  email : option string;
  phone : option string;
  address : option string;
  date_of_birth : option string
}.
End PatientCreate.

Module AppointmentCreate.
Record t : Type := Build {
  patient_id : string;
  doctor_id : string;
  datetime : Z;
  reason : option string
}.
End AppointmentCreate.

(** The fields of a [staff] document: [payload.model_dump()] and the three
    stamps the handler adds. *)
Module Staff.
Record t : Type := Build {
  name : string;
  email : string;
  role : string;
  department : option string;
  phone : option string;
  is_active : bool;
  created_by : string;
  created_at : Z;
  updated_at : Z
}.
End Staff.

Module Patient.
Record t : Type := Build {
  name : string;
  email : option string;
  phone : option string;
  address : option string;
  date_of_birth : option string;
  created_by : string;
  created_at : Z;
  updated_at : Z
}.
End Patient.

(** The fields of an [appointment] document; [D] is the type of the
    [datetime] field, an instant in the store and a string in a listing. *)
Module Appointment.
Record t (D : Type) : Type := Build {
  patient_id : string;
  doctor_id : string;
  datetime : D;
  reason : option string;
  status : string;
  created_by : string;
  created_at : Z;
  updated_at : Z
}.
Arguments Build {D} _ _ _ _ _ _ _ _.
Arguments patient_id {D} _.
Arguments doctor_id {D} _.
Arguments datetime {D} _.
Arguments reason {D} _.
Arguments status {D} _.
Arguments created_by {D} _.
Arguments created_at {D} _.
Arguments updated_at {D} _.

(** [it["datetime"] = it["datetime"].isoformat()] *)
Definition render (isoformat : Z -> string) (a : t Z) : t string :=
  Build (patient_id a) (doctor_id a) (isoformat (datetime a)) (reason a)
        (status a) (created_by a) (created_at a) (updated_at a).
End Appointment.

(** What a create handler answers. *)
Module Created.
Record t : Type := Build {
  id : string;
  message : string
}.
End Created.

(** What [reports_summary] answers. *)
Module Summary.
Record t : Type := Build {
  patients : Z;
  staff : Z;
  appointments : Z;
  generated_at : string
}.
End Summary.

(** ** The state behind the protected endpoints *)

(** The world of the authentication core and the three collections the
    protected endpoints keep. *)
Record Clinic : Type := mkClinic {
  auth : World;
  db_staff : list (Doc.stored Staff.t);
  db_patient : list (Doc.stored Patient.t);
  db_appointment : list (Doc.stored (Appointment.t Z))
}.

Definition CM (A : Type) : Type := Clinic -> Result A * Clinic.

Definition cret {A} (a : A) : CM A := fun c => (Ok a, c).

Definition cbind {A B} (m : CM A) (k : A -> CM B) : CM B :=
  fun c =>
    match m c with
    | (Ok a, c') => k a c'
    | (Raise e, c') => (Raise e, c')
    end.

Notation "x <~ m ;; k" := (cbind m (fun x => k))
  (at level 61, m at next level, right associativity).

(** A computation of the authentication core, run on its part of the
    state. *)
Definition in_auth {A} (m : M A) : CM A :=
  fun c =>
    (fst (m (auth c)),
     mkClinic (snd (m (auth c))) (db_staff c) (db_patient c)
              (db_appointment c)).

(** The identifier the store gives the next inserted document. *)
Definition next_oid : M IdValue :=
  fun w =>
    (Ok (IdOid (new_oid w (oid_reads w))),
     mkWorld (db_user_auth w) (db_token w) (clock w) (clock_reads w)
             (entropy w) (entropy_reads w) (new_oid w) (S (oid_reads w))).

(** Modelled from the spec: the storage collaborator on the collections
    [staff], [patient] and [appointment], with the contract of section 6:
    [insertOne] stores the document after the ones already there under a
    generated identifier, which it returns; [find(filter).limit(n)] gives
    the first [n] stored documents that match, in stored order;
    [countDocuments] their number.  Every call answers. *)
Module Collections.

Definition insert_staff (doc : Staff.t) : CM IdValue :=
  oid <~ in_auth next_oid ;;
  fun c =>
    (Ok oid,
     mkClinic (auth c) (db_staff c ++ [Doc.Stored oid doc]) (db_patient c)
              (db_appointment c)).

Definition insert_patient (doc : Patient.t) : CM IdValue :=
  oid <~ in_auth next_oid ;;
  fun c =>
    (Ok oid,
     mkClinic (auth c) (db_staff c) (db_patient c ++ [Doc.Stored oid doc])
              (db_appointment c)).

Definition insert_appointment (doc : Appointment.t Z) : CM IdValue :=
  oid <~ in_auth next_oid ;;
  fun c =>
    (Ok oid,
     mkClinic (auth c) (db_staff c) (db_patient c)
              (db_appointment c ++ [Doc.Stored oid doc])).

(** [list(db["staff"].find({}).limit(n))] *)
Definition find_staff (n : nat) : CM (list (Doc.stored Staff.t)) :=
  fun c => (Ok (firstn n (db_staff c)), c).

Definition find_patients (n : nat) : CM (list (Doc.stored Patient.t)) :=
  fun c => (Ok (firstn n (db_patient c)), c).

Definition find_appointments (n : nat)
  : CM (list (Doc.stored (Appointment.t Z))) :=
  fun c => (Ok (firstn n (db_appointment c)), c).

(** [list(db["appointment"].find({"doctor_id": v}).limit(n))] *)
Definition find_appointments_of (v : string) (n : nat)
  : CM (list (Doc.stored (Appointment.t Z))) :=
  fun c =>
    (Ok (firstn n
           (filter (fun d => (Appointment.doctor_id (Doc.body d) =? v)%string)
                   (db_appointment c))), c).

Definition count_staff : CM Z :=
  fun c => (Ok (Z.of_nat (List.length (db_staff c))), c).

Definition count_patients : CM Z :=
  fun c => (Ok (Z.of_nat (List.length (db_patient c))), c).

Definition count_appointments : CM Z :=
  fun c => (Ok (Z.of_nat (List.length (db_appointment c))), c).

End Collections.

(** ** Admin endpoints *)

Definition create_staff (payload : StaffCreate.t)
           (authorization : option string) : CM Created.t :=
  user <~ in_auth (guarded ["admin"] authorization) ;;
  created <~ in_auth datetime_now ;;
  updated <~ in_auth datetime_now ;;
  res_id <~ Collections.insert_staff
              (Staff.Build
                 (StaffCreate.name payload)
                 (StaffCreate.email payload)
                 (StaffRole_str (StaffCreate.role payload))
                 (StaffCreate.department payload)
                 (StaffCreate.phone payload)
                 (StaffCreate.is_active payload)
                 (UserOut.id user) created updated) ;;
  cret (Created.Build (py_str res_id) "Staff created").

Definition list_staff (authorization : option string)
  : CM (list (Doc.listed Staff.t)) :=
  user <~ in_auth (guarded ["admin"] authorization) ;;
  items <~ Collections.find_staff 100 ;;
  cret (map Doc.view items).

Definition create_patient (payload : PatientCreate.t)
           (authorization : option string) : CM Created.t :=
  user <~ in_auth (guarded ["admin"; "receptionist"] authorization) ;;
  created <~ in_auth datetime_now ;;
  updated <~ in_auth datetime_now ;;
  res_id <~ Collections.insert_patient
              (Patient.Build
                 (PatientCreate.name payload)
                 (PatientCreate.email payload)
                 (PatientCreate.phone payload)
                 (PatientCreate.address payload)
                 (PatientCreate.date_of_birth payload)
                 (UserOut.id user) created updated) ;;
  cret (Created.Build (py_str res_id) "Patient created").

Definition list_patients (authorization : option string)
  : CM (list (Doc.listed Patient.t)) :=
  user <~ in_auth (guarded ["admin"; "receptionist"; "doctor"]
                     authorization) ;;
  items <~ Collections.find_patients 200 ;;
  cret (map Doc.view items).

Definition create_appointment (payload : AppointmentCreate.t)
           (authorization : option string) : CM Created.t :=
  user <~ in_auth (guarded ["admin"; "receptionist"] authorization) ;;
  created <~ in_auth datetime_now ;;
  updated <~ in_auth datetime_now ;;
  res_id <~ Collections.insert_appointment
              (Appointment.Build
                 (AppointmentCreate.patient_id payload)
                 (AppointmentCreate.doctor_id payload)
                 (AppointmentCreate.datetime payload)
                 (AppointmentCreate.reason payload)
                 "scheduled"
                 (UserOut.id user) created updated) ;;
  cret (Created.Build (py_str res_id) "Appointment created").

Section Rendering.

(** [datetime.isoformat], the rendering of an instant as text, on a stored
    [datetime] and on the timezone-aware [datetime.now(timezone.utc)] (whose
    text carries the offset): the handlers below are given for every such
    rendering. *)
Variable isoformat : Z -> string.
Variable utc_isoformat : Z -> string.

(** A stored appointment as a listing shows it. *)
Definition view_appointment (d : Doc.stored (Appointment.t Z))
  : Doc.listed (Appointment.t string) :=
  Doc.Listed (py_str (Doc._id d)) (Appointment.render isoformat (Doc.body d)).

Definition list_appointments (authorization : option string)
  : CM (list (Doc.listed (Appointment.t string))) :=
  user <~ in_auth (guarded ["admin"; "receptionist"; "doctor"]
                     authorization) ;;
  items <~ Collections.find_appointments 200 ;;
  cret (map view_appointment items).

(** ** Doctor-specific views *)

Definition doctor_schedule (authorization : option string)
  : CM (list (Doc.listed (Appointment.t string))) :=
  user <~ in_auth (guarded ["doctor"] authorization) ;;
  items <~ Collections.find_appointments_of (UserOut.id user) 200 ;;
  cret (map view_appointment items).

(** ** Reports *)

Definition reports_summary (authorization : option string)
  : CM Summary.t :=
  user <~ in_auth (guarded ["admin"] authorization) ;;
  patients <~ Collections.count_patients ;;
  staff <~ Collections.count_staff ;;
  appointments <~ Collections.count_appointments ;;
  now <~ in_auth datetime_now ;;
  cret (Summary.Build patients staff appointments (utc_isoformat now)).

End Rendering.

(** * Vocabulary of the properties *)

(** The time the next call of [datetime.now] returns. *)
Definition current_time (w : World) : Z := clock w (clock_reads w).

(** The world after one reading of the clock. *)
Definition tick (w : World) : World := snd (datetime_now w).

(** The world with another content of the [user_auth] collection. *)
Definition with_user_auth (users : list UserDoc.t) (w : World) : World :=
  mkWorld users (db_token w) (clock w) (clock_reads w)
          (entropy w) (entropy_reads w) (new_oid w) (oid_reads w).

(** Lines 59-80 of [main.py]: the identity a token document leads to. *)
Definition identity_of (tok : TokenDoc.t) (users : list UserDoc.t)
  : Result UserOut.t :=
  let by_id v := find (Store.has_id v) users in
  let user :=
    match by_id (TokenDoc.user_id tok) with
    | Some user => Some user
    | None =>
        match ObjectId (TokenDoc.user_id tok) with
        | Some oid => by_id oid
        | None => None
        end
    end in
  match user with
  | None => Raise OrphanedToken
  | Some user =>
      Ok (UserOut.Build (py_str (UserDoc._id user)) (UserDoc.name user)
            (UserDoc.email user) (UserDoc.role user)
            (UserDoc.get_is_active user true))
  end.

(** The identity a login request's email selects, if one is stored. *)
Definition login_user (payload : LoginRequest.t) (w : World)
  : option UserDoc.t :=
  find (Store.has_email (PyStr.lower (LoginRequest.email payload)))
       (db_user_auth w).

(** No character of [s] is whitespace. *)
Fixpoint no_space (s : string) : bool :=
  match s with
  | EmptyString => true
  | String c s' => negb (PyStr.isspace c) && no_space s'
  end.

(** The identity the request's email selects, if one is stored. *)
Definition signup_existing (payload : SignupRequest.t) (w : World)
  : option UserDoc.t :=
  find (Store.has_email (PyStr.lower (SignupRequest.email payload)))
       (db_user_auth w).

(** The two documents a successful signup stores, and the world it leaves. *)
Definition signup_user_doc (payload : SignupRequest.t) (w : World)
  : UserDoc.t :=
  UserDoc.Build
    (IdOid (new_oid w (oid_reads w)))
    (Some (SignupRequest.name payload))
    (Some (PyStr.lower (SignupRequest.email payload)))
    (Some (Role_str (SignupRequest.role payload)))
    (Some (hash_password (SignupRequest.password payload)))
    (Some true)
    (Some (clock w (clock_reads w)))
    (Some (clock w (1 + clock_reads w)%nat)).

Definition signup_token_doc (payload : SignupRequest.t) (w : World)
  : TokenDoc.t :=
  TokenDoc.Build
    (IdOid (new_oid w (1 + oid_reads w)%nat))
    (entropy w (entropy_reads w))
    (IdStr (new_oid w (oid_reads w)))
    (Some (Role_str (SignupRequest.role payload)))
    (Some (clock w (2 + clock_reads w)%nat + seven_days))
    (clock w (3 + clock_reads w)%nat).

Definition signup_world (payload : SignupRequest.t) (w : World) : World :=
  mkWorld (db_user_auth w ++ [signup_user_doc payload w])
          (db_token w ++ [signup_token_doc payload w])
          (clock w) (4 + clock_reads w)
          (entropy w) (1 + entropy_reads w)
          (new_oid w) (2 + oid_reads w).

(** The identities whose email equals [e] up to letter case. *)
Definition same_email (e : string) (d : UserDoc.t) : bool :=
  match UserDoc.email d with
  | Some e' => (PyStr.lower e' =? PyStr.lower e)%string
  | None => false
  end.

Definition identities_for (e : string) (users : list UserDoc.t)
  : list UserDoc.t :=
  filter (same_email e) users.

(** The invariant of the identity collection: stored emails are in lower
    case, and no two identities share an email up to letter case. *)
Definition emails_normalized (users : list UserDoc.t) : Prop :=
  forall d e, In d users -> UserDoc.email d = Some e -> PyStr.lower e = e.

Definition emails_unique (users : list UserDoc.t) : Prop :=
  forall e, (List.length (identities_for e users) <= 1)%nat.

(** The world after a sequence of signups, whatever each one answers. *)
Fixpoint run_signups (reqs : list SignupRequest.t) (w : World) : World :=
  match reqs with
  | [] => w
  | payload :: rest => run_signups rest (snd (signup payload w))
  end.

(** What the outside inputs of a signup are in a real run: the generated
    token is a non-empty string without whitespace that no stored session
    carries, the generated identifier is an ObjectId that no stored identity
    carries, and the clock moves by at most seven days between the issuing
    of the token and its first use. *)
Definition outside_inputs_fresh (w : World) : Prop :=
  entropy w (entropy_reads w) <> ""
  /\ no_space (entropy w (entropy_reads w)) = true
  /\ find (Store.has_token (entropy w (entropy_reads w))) (db_token w) = None
  /\ ObjectId (IdStr (new_oid w (oid_reads w)))
     = Some (IdOid (new_oid w (oid_reads w)))
  /\ find (Store.has_id (IdStr (new_oid w (oid_reads w)))) (db_user_auth w)
     = None
  /\ find (Store.has_id (IdOid (new_oid w (oid_reads w)))) (db_user_auth w)
     = None
  /\ clock w (4 + clock_reads w)%nat
     <= clock w (2 + clock_reads w)%nat + seven_days.

(** ** Vocabulary of the further properties *)

(** The identity view the resolver builds from a stored identity
    (lines 73-79 of [main.py]). *)
Definition user_out (user : UserDoc.t) : UserOut.t :=
  UserOut.Build (py_str (UserDoc._id user)) (UserDoc.name user)
    (UserDoc.email user) (UserDoc.role user)
    (UserDoc.get_is_active user true).

(** The session has no expiry, or one that [now] has not passed. *)
Definition unexpired (tok : TokenDoc.t) (now : Z) : Prop :=
  forall e, TokenDoc.expires_at tok = Some e -> now <= e.

(** The session [create_token] stores, and the world it leaves. *)
Definition issued_doc (user_id : string) (role : option string) (w : World)
  : TokenDoc.t :=
  TokenDoc.Build
    (IdOid (new_oid w (oid_reads w)))
    (entropy w (entropy_reads w))
    (IdStr user_id)
    role
    (Some (clock w (clock_reads w) + seven_days))
    (clock w (1 + clock_reads w)%nat).

Definition issued_world (user_id : string) (role : option string)
           (w : World) : World :=
  mkWorld (db_user_auth w)
          (db_token w ++ [issued_doc user_id role w])
          (clock w) (2 + clock_reads w)
          (entropy w) (1 + entropy_reads w)
          (new_oid w) (1 + oid_reads w).

(** The three collections of the protected endpoints and the two of the
    authentication core are the same in both states. *)
Definition same_collections (c c' : Clinic) : Prop :=
  db_staff c' = db_staff c
  /\ db_patient c' = db_patient c
  /\ db_appointment c' = db_appointment c
  /\ db_user_auth (auth c') = db_user_auth (auth c)
  /\ db_token (auth c') = db_token (auth c).

(** The caller the credential resolves to in state [c]. *)
Definition caller (authorization : option string) (c : Clinic)
  : Result UserOut.t :=
  fst (get_user_from_token authorization (auth c)).

(** The state after the resolver has run. *)
Definition resolved (authorization : option string) (c : Clinic) : Clinic :=
  mkClinic (snd (get_user_from_token authorization (auth c)))
           (db_staff c) (db_patient c) (db_appointment c).

(** The world after [n] more readings of the clock. *)
Fixpoint ticks (n : nat) (w : World) : World :=
  match n with
  | O => w
  | S n' => ticks n' (tick w)
  end.

(** The world after one more identifier has been generated. *)
Definition after_oid (w : World) : World := snd (next_oid w).

(** ** Vocabulary of the protected endpoints *)

(** Whether a handler answered, and with which error if not. *)
Definition outcome {A} (r : Result A * Clinic) : Result unit :=
  match fst r with
  | Ok _ => Ok tt
  | Raise e => Raise e
  end.

(** The documents the create handlers store for caller [u], in the world
    [w] the gate has left. *)
Definition staff_doc (payload : StaffCreate.t) (u : UserOut.t) (w : World)
  : Doc.stored Staff.t :=
  Doc.Stored (IdOid (new_oid w (oid_reads w)))
    (Staff.Build
       (StaffCreate.name payload)
       (StaffCreate.email payload)
       (StaffRole_str (StaffCreate.role payload))
       (StaffCreate.department payload)
       (StaffCreate.phone payload)
       (StaffCreate.is_active payload)
       (UserOut.id u)
       (clock w (clock_reads w))
       (clock w (1 + clock_reads w)%nat)).

Definition patient_doc (payload : PatientCreate.t) (u : UserOut.t)
           (w : World) : Doc.stored Patient.t :=
  Doc.Stored (IdOid (new_oid w (oid_reads w)))
    (Patient.Build
       (PatientCreate.name payload)
       (PatientCreate.email payload)
       (PatientCreate.phone payload)
       (PatientCreate.address payload)
       (PatientCreate.date_of_birth payload)
       (UserOut.id u)
       (clock w (clock_reads w))
       (clock w (1 + clock_reads w)%nat)).

Definition appointment_doc (payload : AppointmentCreate.t) (u : UserOut.t)
           (w : World) : Doc.stored (Appointment.t Z) :=
  Doc.Stored (IdOid (new_oid w (oid_reads w)))
    (Appointment.Build
       (AppointmentCreate.patient_id payload)
       (AppointmentCreate.doctor_id payload)
       (AppointmentCreate.datetime payload)
       (AppointmentCreate.reason payload)
       "scheduled"
       (UserOut.id u)
       (clock w (clock_reads w))
       (clock w (1 + clock_reads w)%nat)).

(** The world after a create handler's two readings of the clock and one
    generated identifier. *)
Definition stamped (w : World) : World := after_oid (ticks 2 w).

(** The appointments of the doctor with identifier [v]. *)
Definition appointments_of (v : string)
           (l : list (Doc.stored (Appointment.t Z)))
  : list (Doc.stored (Appointment.t Z)) :=
  filter (fun d => (Appointment.doctor_id (Doc.body d) =? v)%string) l.

(** The identity lookup by the string [s] leads to [user]: directly, or
    through the ObjectId that [s] names when no identity is stored under
    [s] itself. *)
Definition found_by_string (s : string) (user : UserDoc.t)
           (users : list UserDoc.t) : Prop :=
  find (Store.has_id (IdStr s)) users = Some user
  \/ (find (Store.has_id (IdStr s)) users = None
      /\ exists oid, ObjectId (IdStr s) = Some oid
                     /\ find (Store.has_id oid) users = Some user).

(** ** Concrete worlds and requests *)

Definition demo_entropy (n : nat) : string :=
  String (PyStr.chr (97 + Z.of_nat n)) "Zq3_session-token".

Definition demo_oid (n : nat) : string :=
  "64b0c0ffee0000000000000"
  ++ String (Hashlib.hex_digit (Z.of_nat n mod 16)) "".

(** A world whose clock stands at [now]. *)
Definition world_at (now : Z) (users : list UserDoc.t)
           (tokens : list TokenDoc.t) : World :=
  mkWorld users tokens (fun _ => now) 0 demo_entropy 0 demo_oid 0.

(** A world with an empty store and a clock that advances by one
    microsecond a reading. *)
Definition empty_world : World :=
  mkWorld [] [] (fun n => 1000 + Z.of_nat n) 0 demo_entropy 0 demo_oid 0.

Definition ann_doc : UserDoc.t :=
  UserDoc.Build (IdOid "64b0c0ffee00000000000000") (Some "Ann")
    (Some "ann@x.com") (Some "admin") (Some (hash_password "secret"))
    (Some true) (Some 1000) (Some 1001).

Definition ann_out : UserOut.t :=
  UserOut.Build "64b0c0ffee00000000000000" (Some "Ann") (Some "ann@x.com")
    (Some "admin") true.

(** A session of Ann's that expires at [expires]. *)
Definition ann_token (expires : Z) : TokenDoc.t :=
  TokenDoc.Build (IdOid "64b0c0ffee00000000000001") "tokA"
    (IdStr "64b0c0ffee00000000000000") (Some "admin") (Some expires) 1003.

(** An identity stored without a password digest. *)
Definition carl_doc : UserDoc.t :=
  UserDoc.Build (IdOid "64b0c0ffee00000000000002") (Some "Carl")
    (Some "carl@x.com") (Some "patient") None (Some true) None None.

Definition clinic_world : World := world_at 5000 [ann_doc; carl_doc] [].

Definition login_unknown : LoginRequest.t :=
  LoginRequest.Build "nobody@x.com" "secret".

Definition login_wrong : LoginRequest.t :=
  LoginRequest.Build "Ann@x.com" "Secret".

Definition login_carl : LoginRequest.t :=
  LoginRequest.Build "carl@x.com" "".

Definition ann_request : SignupRequest.t :=
  SignupRequest.Build "Ann" "Ann@X.com" "secret" admin.

Definition ann_again : SignupRequest.t :=
  SignupRequest.Build "Annie" "ANN@x.COM" "other" patient.

Definition bob_request : SignupRequest.t :=
  SignupRequest.Build "Bob" "bob@x.com" "hunter2" doctor.

Definition admin_request : SignupRequest.t :=
  SignupRequest.Build "Mallory" "mallory@x.com" "pw" admin.

Definition eternal_token : TokenDoc.t :=
  TokenDoc.Build (IdOid "64b0c0ffee00000000000003") "tokE"
    (IdStr "64b0c0ffee00000000000000") (Some "admin") None 1003.

(** An identity stored under the string that names Ann's ObjectId. *)
Definition shadow_doc : UserDoc.t :=
  UserDoc.Build (IdStr "64b0c0ffee00000000000000") (Some "Shadow")
    (Some "shadow@x.com") (Some "patient") None None None None.

Definition dan_doc : UserDoc.t :=
  UserDoc.Build (IdStr "dan") (Some "Dan") (Some "dan@x.com")
    (Some "doctor") (Some (hash_password "pw")) (Some false) None None.

Definition dan_token : TokenDoc.t :=
  TokenDoc.Build (IdOid "64b0c0ffee00000000000004") "tokD" (IdStr "dan")
    (Some "doctor") (Some 6000) 1003.

(** A clinic with an administrator (Ann), a receptionist (Rita), a doctor
    (Dora) and a patient (Pat), each with a session. *)
Definition rita_doc : UserDoc.t :=
  UserDoc.Build (IdStr "rita") (Some "Rita") (Some "rita@x.com")
    (Some "receptionist") (Some (hash_password "pw")) (Some true) None None.

Definition dora_doc : UserDoc.t :=
  UserDoc.Build (IdStr "dora") (Some "Dora") (Some "dora@x.com")
    (Some "doctor") (Some (hash_password "pw")) (Some true) None None.

Definition pat_doc : UserDoc.t :=
  UserDoc.Build (IdStr "pat") (Some "Pat") (Some "pat@x.com")
    (Some "patient") (Some (hash_password "pw")) (Some true) None None.

Definition session (t user_id role : string) : TokenDoc.t :=
  TokenDoc.Build (IdOid "64b0c0ffee0000000000000f") t (IdStr user_id)
    (Some role) (Some 6000) 1003.

Definition clinic_auth : World :=
  world_at 5000 [ann_doc; rita_doc; dora_doc; pat_doc]
    [ann_token 6000; session "tokR" "rita" "receptionist";
     session "tokO" "dora" "doctor"; session "tokP" "pat" "patient"].

Definition visit (doctor : string) (at_ : Z)
  : Doc.stored (Appointment.t Z) :=
  Doc.Stored (IdOid "64b0c0ffee000000000000a1")
    (Appointment.Build "p1" doctor at_ None "scheduled" "rita" 1 2).

Definition clinic0 : Clinic :=
  mkClinic clinic_auth [] []
    [visit "dora" 7000; visit "dan" 7100; visit "dora" 7200].

Definition new_patient : PatientCreate.t :=
  PatientCreate.Build "Paul" None (Some "555") None (Some "1990-01-01").

Definition new_staff : StaffCreate.t :=
  StaffCreate.Build "Nora" "nora@x.com" staff_nurse (Some "ER") None true.

Definition new_appointment : AppointmentCreate.t :=
  AppointmentCreate.Build "p1" "dora" 7300 (Some "check-up").

(** A stand-in rendering of instants for the concrete runs. *)
Definition demo_isoformat (t : Z) : string :=
  if t =? 7000 then "1970-01-01T00:00:00.007000" else "later".

(** * Properties *)

(** ** The library models on known values *)

Example round_constants :
  nth 0 Hashlib.K 0 = 0x428a2f98 /\ nth 63 Hashlib.K 0 = 0xc67178f2
  /\ List.length Hashlib.K = 64%nat
  /\ Hashlib.ha Hashlib.H0 = 0x6a09e667 /\ Hashlib.hh Hashlib.H0 = 0x5be0cd19.
Proof. repeat split. Qed.

Example sha_empty :
  hash_password "" =
  "e3b0c44298fc1c149afbf4c8996fb92427ae41e4649b934ca495991b7852b855".
Proof. vm_compute. reflexivity. Qed.

Example sha_abc :
  hash_password "abc" =
  "ba7816bf8f01cfea414140de5dae2223b00361a396177a9cb410ff61f20015ad".
Proof. vm_compute. reflexivity. Qed.

Example sha_two_blocks :
  hash_password "abcdbcdecdefdefgefghfghighijhijkijkljklmklmnlmnomnopnopq" =
  "248d6a61d20638b8e5c026930c3e6039a33ce45964ff2167f6ecedd419db06c1".
Proof. vm_compute. reflexivity. Qed.

Example encode_latin1 :
  PyStr.encode (String (PyStr.chr 233) "a") = [195; 169; 97].
Proof. reflexivity. Qed.

Example split_header :
  PyStr.split "  bEaReR   abc  " = ["bEaReR"; "abc"].
Proof. reflexivity. Qed.

(** ** The password hasher *)

Section Hasher.

Lemma land15_range (x : Z) : 0 <= Z.land x 15 < 16.
Proof.
  change 15 with (Z.ones 4).
  rewrite Z.land_ones by lia.
  apply Z.mod_pos_bound. reflexivity.
Qed.

Lemma nibble_is_hex (w i : Z) : is_hex_digit (Hashlib.nibble w i) = true.
Proof.
  unfold Hashlib.nibble.
  pose proof (land15_range (Z.shiftr w (4 * i))) as R.
  set (n := Z.land (Z.shiftr w (4 * i)) 15) in *.
  assert (exists k : nat, (k < 16)%nat /\ n = Z.of_nat k) as [k [Hk E]].
  { exists (Z.to_nat n). split; lia. }
  rewrite E. clear E R n.
  do 16 (destruct k as [ | k]; [reflexivity | ]).
  lia.
Qed.

Lemma hex_word_length (w : Z) (rest : string) :
  String.length (Hashlib.hex_word w rest) = (8 + String.length rest)%nat.
Proof. reflexivity. Qed.

Lemma hex_word_all_hex (w : Z) (rest : string) :
  all_hex rest = true -> all_hex (Hashlib.hex_word w rest) = true.
Proof.
  intros H. unfold Hashlib.hex_word. cbn [all_hex].
  rewrite !nibble_is_hex, H. reflexivity.
Qed.

(** The digest is always 64 characters long. *)
Lemma hash_password_length (p : string) :
  String.length (hash_password p) = 64%nat.
Proof.
  unfold hash_password, Hashlib.sha256_hexdigest, Hashlib.hex_state.
  rewrite !hex_word_length. reflexivity.
Qed.

(** Every character of the digest is a hexadecimal digit. *)
Lemma hash_password_hex (p : string) : all_hex (hash_password p) = true.
Proof.
  unfold hash_password, Hashlib.sha256_hexdigest, Hashlib.hex_state.
  repeat apply hex_word_all_hex. reflexivity.
Qed.

Lemma hash_password_nonempty (p : string) : hash_password p <> "".
Proof.
  intros E. pose proof (hash_password_length p) as L.
  rewrite E in L. discriminate L.
Qed.

Lemma verify_password_spec (p d : string) :
  verify_password p d = true <-> hash_password p = d.
Proof. unfold verify_password. apply String.eqb_eq. Qed.

Lemma verify_password_empty (p : string) : verify_password p "" = false.
Proof.
  destruct (verify_password p "") eqn:E; [ | reflexivity ].
  apply verify_password_spec in E.
  now apply hash_password_nonempty in E.
Qed.

End Hasher.

(** C7: the hasher round-trips.  Equal plaintexts have equal digests;
    [verify_password p (hash_password p)] is true for every [p];
    for distinct plaintexts [p1], [p2] whose digests differ,
    [verify_password p1 (hash_password p2)] is false; and
    [verify_password p d] is true exactly when [hash_password p = d]. *)
Theorem hasher_round_trip :
  (forall p1 p2 : string, p1 = p2 -> hash_password p1 = hash_password p2)
  /\ (forall p : string, verify_password p (hash_password p) = true)
  /\ (forall p1 p2 : string,
        p1 <> p2 -> hash_password p1 <> hash_password p2 ->
        verify_password p1 (hash_password p2) = false)
  /\ (forall p d : string,
        verify_password p d = true <-> hash_password p = d).
Proof.
  split; [ | split; [ | split]].
  - intros p1 p2 E. now rewrite E.
  - intros p. now apply verify_password_spec.
  - intros p1 p2 _ Hd.
    destruct (verify_password p1 (hash_password p2)) eqn:E; [ | reflexivity ].
    apply verify_password_spec in E. contradiction.
  - apply verify_password_spec.
Qed.

Lemma hasher_round_trip_witness :
  verify_password "secret" (hash_password "Secret") = false.
Proof.
  apply (proj1 (proj2 (proj2 hasher_round_trip)) "secret" "Secret").
  - discriminate.
  - vm_compute. discriminate.
Defined.

(** ** The access gate *)

Lemma role_in_spec (role : option string) (allowed : list string) :
  role_in role allowed = true <-> exists r, role = Some r /\ In r allowed.
Proof.
  destruct role as [r | ]; simpl.
  - rewrite existsb_exists. split.
    + intros [x [Hin E]]. apply String.eqb_eq in E. subst x. eauto.
    + intros [x [E Hin]]. injection E as <-. exists r. split; [assumption | ].
      apply String.eqb_refl.
  - split; [discriminate | ]. intros [r [E _]]. discriminate E.
Qed.

(** C2: the gate fails with [Forbidden] exactly when the identity's role is
    not a member of the allowed list, comparing strings exactly, and
    otherwise returns the identity unchanged; the [is_active] flag plays no
    part, so an inactive identity with an allowed role is accepted. *)
Theorem require_roles_membership :
  forall (allowed : list string) (user : UserOut.t),
    (require_roles allowed user = Raise Forbidden
       <-> ~ exists r, UserOut.role user = Some r /\ In r allowed)
    /\ (require_roles allowed user = Ok user
       <-> exists r, UserOut.role user = Some r /\ In r allowed)
    /\ (forall id name email role active,
          require_roles allowed (UserOut.Build id name email role active)
          = match require_roles allowed
                    (UserOut.Build id name email role (negb active)) with
            | Ok _ => Ok (UserOut.Build id name email role active)
            | Raise e => Raise e
            end)
    /\ (forall id name email r,
          In r allowed ->
          require_roles allowed (UserOut.Build id name email (Some r) false)
          = Ok (UserOut.Build id name email (Some r) false)).
Proof.
  intros allowed user.
  assert (G : forall u, require_roles allowed u
                        = if role_in (UserOut.role u) allowed
                          then Ok u else Raise Forbidden).
  { intros u. unfold require_roles.
    destruct (role_in (UserOut.role u) allowed); reflexivity. }
  split; [ | split; [ | split]].
  - rewrite G, <- role_in_spec.
    destruct (role_in (UserOut.role user) allowed); split; intros H;
      try discriminate; try reflexivity; congruence.
  - rewrite G, <- role_in_spec.
    destruct (role_in (UserOut.role user) allowed); split; intros H;
      try discriminate; reflexivity.
  - intros id name email role active. rewrite !G. simpl.
    destruct (role_in role allowed); reflexivity.
  - intros id name email r Hin. rewrite G. simpl.
    replace (existsb (String.eqb r) allowed) with true; [reflexivity | ].
    symmetry. apply existsb_exists. exists r. split; [assumption | ].
    apply String.eqb_refl.
Qed.

Lemma require_roles_membership_witness :
  require_roles ["admin"]
    (UserOut.Build "u1" (Some "Ann") (Some "a@x.com") (Some "admin") false)
  = Ok (UserOut.Build "u1" (Some "Ann") (Some "a@x.com") (Some "admin") false).
Proof.
  apply (proj2 (proj2 (proj2 (require_roles_membership ["admin"]
           (UserOut.Build "u1" None None None true))))).
  simpl. left. reflexivity.
Defined.

Example require_roles_case_sensitive :
  require_roles ["admin"]
    (UserOut.Build "u1" (Some "Ann") (Some "a@x.com") (Some "Admin") true)
  = Raise Forbidden.
Proof. reflexivity. Qed.

Example require_roles_doctor_forbidden :
  require_roles ["admin"]
    (UserOut.Build "u2" (Some "Bob") (Some "b@x.com") (Some "doctor") true)
  = Raise Forbidden.
Proof. reflexivity. Qed.

(** ** Login *)

Section Login.

Variable payload : LoginRequest.t.
Variable w : World.

(** What [login] does, check by check. *)
Lemma login_unfold :
  login payload w =
  match login_user payload w with
  | None => (Raise InvalidCredentials, w)
  | Some user =>
      if verify_password (LoginRequest.password payload)
           (UserDoc.get_password_hash user "")
      then
        if UserDoc.get_is_active user true
        then (token <- create_token (py_str (UserDoc._id user))
                         (UserDoc.role user) ;;
              lift (AuthResponse.make (Some token) (UserDoc.role user)
                      (UserDoc.name user) (UserDoc.email user))) w
        else (Raise InactiveAccount, w)
      else (Raise InvalidCredentials, w)
  end.
Proof.
  unfold login, login_user, bind, Store.find_user_by_email. simpl.
  destruct (find _ (db_user_auth w)) as [user | ]; [ | reflexivity ].
  destruct (verify_password _ _); [ | reflexivity ].
  destruct (UserDoc.get_is_active user true); reflexivity.
Qed.

End Login.

(** C4: an unknown email and a known email with a mismatched password get
    the same failure from [login]: both raise [InvalidCredentials], with the
    same status code and the same message. *)
Theorem login_same_error :
  forall (p1 p2 : LoginRequest.t) (w1 w2 : World) (user : UserDoc.t),
    login_user p1 w1 = None ->
    login_user p2 w2 = Some user ->
    verify_password (LoginRequest.password p2)
      (UserDoc.get_password_hash user "") = false ->
    fst (login p1 w1) = Raise InvalidCredentials
    /\ fst (login p2 w2) = Raise InvalidCredentials
    /\ fst (login p1 w1) = fst (login p2 w2).
Proof.
  intros p1 p2 w1 w2 user H1 H2 Hv.
  rewrite (login_unfold p1 w1), (login_unfold p2 w2), H1, H2, Hv.
  simpl. repeat split.
Qed.

Lemma login_same_error_witness :
  fst (login login_unknown clinic_world) = Raise InvalidCredentials
  /\ fst (login login_wrong clinic_world) = Raise InvalidCredentials
  /\ fst (login login_unknown clinic_world)
     = fst (login login_wrong clinic_world).
Proof.
  apply (login_same_error login_unknown login_wrong clinic_world clinic_world
           ann_doc); [reflexivity | reflexivity | vm_compute; reflexivity].
Defined.

(** C5: a login that fails one of the three checks (unknown email,
    mismatched password, inactive account) raises and leaves the world as it
    was, so it returns no token and writes no token document; and a login
    after which the token collection differs has passed all three. *)
Theorem login_failure_writes_nothing :
  forall (payload : LoginRequest.t) (w : World),
    ((login_user payload w = None
      \/ exists user,
           login_user payload w = Some user
           /\ (verify_password (LoginRequest.password payload)
                 (UserDoc.get_password_hash user "") = false
               \/ UserDoc.get_is_active user true = false)) ->
     exists e, login payload w = (Raise e, w)
               /\ (e = InvalidCredentials \/ e = InactiveAccount))
    /\ (db_token (snd (login payload w)) <> db_token w ->
        exists user,
          login_user payload w = Some user
          /\ verify_password (LoginRequest.password payload)
               (UserDoc.get_password_hash user "") = true
          /\ UserDoc.get_is_active user true = true).
Proof.
  intros payload w. rewrite login_unfold. split.
  - intros [E | [user [E [Hv | Ha]]]]; rewrite E.
    + exists InvalidCredentials. split; [reflexivity | now left].
    + rewrite Hv. exists InvalidCredentials. split; [reflexivity | now left].
    + rewrite Ha.
      destruct (verify_password _ _);
        [exists InactiveAccount | exists InvalidCredentials];
        (split; [reflexivity | ]); [now right | now left].
  - destruct (login_user payload w) as [user | ];
      [ | intros H; exfalso; apply H; reflexivity ].
    destruct (verify_password _ _) eqn:Hv;
      [ | intros H; exfalso; apply H; reflexivity ].
    destruct (UserDoc.get_is_active user true) eqn:Ha;
      [ | intros H; exfalso; apply H; reflexivity ].
    intros _. exists user. repeat split; assumption.
Qed.

Lemma login_failure_writes_nothing_witness :
  exists e, login login_wrong clinic_world = (Raise e, clinic_world)
            /\ (e = InvalidCredentials \/ e = InactiveAccount).
Proof.
  apply (proj1 (login_failure_writes_nothing login_wrong clinic_world)).
  right. exists ann_doc. split; [reflexivity | ].
  left. vm_compute. reflexivity.
Defined.

(** C10: a stored identity without a password digest can never log in.
    The digest of any plaintext is 64 hexadecimal digits, the missing field
    reads as the empty string, so the comparison fails and [login] raises
    [InvalidCredentials], writing nothing. *)
Theorem login_without_digest :
  forall (payload : LoginRequest.t) (w : World) (user : UserDoc.t),
    login_user payload w = Some user ->
    UserDoc.password_hash user = None ->
    String.length (hash_password (LoginRequest.password payload)) = 64%nat
    /\ all_hex (hash_password (LoginRequest.password payload)) = true
    /\ UserDoc.get_password_hash user "" = ""
    /\ verify_password (LoginRequest.password payload)
         (UserDoc.get_password_hash user "") = false
    /\ login payload w = (Raise InvalidCredentials, w).
Proof.
  intros payload w user Hu Hd.
  assert (G : UserDoc.get_password_hash user "" = "").
  { unfold UserDoc.get_password_hash. now rewrite Hd. }
  split; [apply hash_password_length | ].
  split; [apply hash_password_hex | ].
  split; [exact G | ].
  split; [rewrite G; apply verify_password_empty | ].
  rewrite login_unfold, Hu, G, verify_password_empty. reflexivity.
Qed.

Lemma login_without_digest_witness :
  login login_carl clinic_world = (Raise InvalidCredentials, clinic_world).
Proof.
  apply (login_without_digest login_carl clinic_world carl_doc); reflexivity.
Defined.

Example login_success_issues_token :
  fst (login (LoginRequest.Build "ANN@x.com" "secret") clinic_world)
  = Ok (AuthResponse.Build "aZq3_session-token" "admin" "Ann" "ann@x.com")
  /\ List.length
       (db_token (snd (login (LoginRequest.Build "ANN@x.com" "secret")
                         clinic_world))) = 1%nat.
Proof. vm_compute. split; reflexivity. Qed.

(** Outside the three checks: a stored identity without a name passes them,
    gets a session, and only then fails in the response model. *)
Example login_response_validation :
  fst (login login_carl
         (world_at 5000
            [UserDoc.Build (IdOid "64b0c0ffee00000000000002") None
               (Some "carl@x.com") (Some "patient")
               (Some (hash_password "")) None None None] []))
  = Raise (ValidationError ["name"]).
Proof. vm_compute. reflexivity. Qed.

(** ** The session resolver *)

Section Resolver.

Lemma split_empty : PyStr.split "" = [].
Proof. reflexivity. Qed.

(** A header that parses is resolved as its second part. *)
Lemma get_user_from_token_parsed (a scheme t : string) (w : World) :
  PyStr.split a = [scheme; t] ->
  PyStr.lower scheme = "bearer" ->
  get_user_from_token (Some a) w = resolve_token t w.
Proof.
  intros Hs Hl. unfold get_user_from_token.
  destruct a as [ | c a']; [discriminate Hs | ].
  cbn [PyStr.truthy String.eqb negb].
  rewrite Hs. cbn [List.length Nat.eqb negb nth orb].
  rewrite Hl. reflexivity.
Qed.

Lemma resolve_token_unknown (t : string) (w : World) :
  find (Store.has_token t) (db_token w) = None ->
  resolve_token t w = (Raise InvalidToken, w).
Proof.
  intros Hf. unfold resolve_token, bind, Store.find_token. simpl.
  rewrite Hf. reflexivity.
Qed.

(** A token document with an expiry: one reading of the clock decides. *)
Lemma resolve_token_with_expiry (t : string) (w : World)
      (tok : TokenDoc.t) (e : Z) :
  find (Store.has_token t) (db_token w) = Some tok ->
  TokenDoc.expires_at tok = Some e ->
  resolve_token t w =
  (if e <? current_time w then Raise ExpiredToken
   else identity_of tok (db_user_auth w), tick w).
Proof.
  intros Hf He.
  unfold resolve_token, bind, Store.find_token, Store.find_user_by_id,
    datetime_now, ret, raise, tick, current_time, identity_of.
  cbn. rewrite Hf. cbn. rewrite He. cbn.
  destruct (e <? clock w (clock_reads w)); cbn; [reflexivity | ].
  destruct (find (Store.has_id (TokenDoc.user_id tok)) (db_user_auth w))
    as [user | ] eqn:E1; cbn; [reflexivity | ].
  rewrite ?E1.
  destruct (ObjectId (TokenDoc.user_id tok)) as [oid | ]; cbn;
    [ | reflexivity ].
  destruct (find (Store.has_id oid) (db_user_auth w)); reflexivity.
Qed.

(** A token document without an expiry never expires, and the clock is
    not read. *)
Lemma resolve_token_without_expiry (t : string) (w : World)
      (tok : TokenDoc.t) :
  find (Store.has_token t) (db_token w) = Some tok ->
  TokenDoc.expires_at tok = None ->
  resolve_token t w = (identity_of tok (db_user_auth w), w).
Proof.
  intros Hf He.
  unfold resolve_token, bind, Store.find_token, Store.find_user_by_id,
    ret, raise, identity_of.
  cbn. rewrite Hf. cbn. rewrite He. cbn.
  destruct (find (Store.has_id (TokenDoc.user_id tok)) (db_user_auth w))
    as [user | ] eqn:E1; cbn; [reflexivity | ].
  rewrite ?E1.
  destruct (ObjectId (TokenDoc.user_id tok)) as [oid | ]; cbn;
    [ | reflexivity ].
  destruct (find (Store.has_id oid) (db_user_auth w)); reflexivity.
Qed.

Lemma identity_of_not_expired (tok : TokenDoc.t) (users : list UserDoc.t) :
  identity_of tok users = Raise OrphanedToken
  \/ exists u, identity_of tok users = Ok u.
Proof.
  unfold identity_of.
  destruct (match find (Store.has_id (TokenDoc.user_id tok)) users with
            | Some user => Some user
            | None => _
            end) as [user | ]; [right | left]; eauto.
Qed.

End Resolver.

(** C1, the claim as stated, fails: at the instant the clock equals the
    expiry the resolver still accepts the token and returns the identity. *)
Lemma expiry_instant_is_accepted :
  find (Store.has_token "tokA")
       (db_token (world_at 5000 [ann_doc] [ann_token 5000]))
  = Some (ann_token 5000)
  /\ TokenDoc.expires_at (ann_token 5000) = Some 5000
  /\ current_time (world_at 5000 [ann_doc] [ann_token 5000]) = 5000
  /\ fst (get_user_from_token (Some "Bearer tokA")
            (world_at 5000 [ann_doc] [ann_token 5000]))
     = Ok ann_out
  /\ fst (get_user_from_token (Some "Bearer tokA")
            (world_at 5000 [ann_doc] [ann_token 5000]))
     <> Raise ExpiredToken.
Proof.
  repeat split; try reflexivity.
  vm_compute. discriminate.
Qed.

(** C1, amended: for a stored token with an expiry set, the resolver fails
    with [ExpiredToken] exactly when the expiry is strictly before the
    current time; when the current time is at or before the expiry it goes
    on to the identity lookup, whose outcome is an identity or
    [OrphanedToken]. *)
Theorem token_expiry_check :
  forall (a scheme t : string) (w : World) (tok : TokenDoc.t) (e : Z),
    PyStr.split a = [scheme; t] ->
    PyStr.lower scheme = "bearer" ->
    find (Store.has_token t) (db_token w) = Some tok ->
    TokenDoc.expires_at tok = Some e ->
    (fst (get_user_from_token (Some a) w) = Raise ExpiredToken
       <-> e < current_time w)
    /\ (current_time w <= e ->
        get_user_from_token (Some a) w
        = (identity_of tok (db_user_auth w), tick w))
    /\ (current_time w <= e ->
        fst (get_user_from_token (Some a) w) = Raise OrphanedToken
        \/ exists u, fst (get_user_from_token (Some a) w) = Ok u).
Proof.
  intros a scheme t w tok e Hs Hl Hf He.
  rewrite (get_user_from_token_parsed a scheme t w Hs Hl).
  rewrite (resolve_token_with_expiry t w tok e Hf He).
  cbn [fst].
  destruct (Z.ltb_spec e (current_time w)) as [Hlt | Hge].
  - split; [ | split]; try lia. split; [intros _; assumption | reflexivity].
  - split; [ | split].
    + split; [ | lia].
      destruct (identity_of_not_expired tok (db_user_auth w)) as [E | [u E]];
        rewrite E; discriminate.
    + reflexivity.
    + intros _. apply identity_of_not_expired.
Qed.

Lemma token_expiry_check_witness :
  fst (get_user_from_token (Some "bearer tokA")
         (world_at 5001 [ann_doc] [ann_token 5000]))
  = Raise ExpiredToken.
Proof.
  apply (proj1 (token_expiry_check "bearer tokA" "bearer" "tokA"
                  (world_at 5001 [ann_doc] [ann_token 5000])
                  (ann_token 5000) 5000
                  eq_refl eq_refl eq_refl eq_refl)).
  vm_compute. reflexivity.
Defined.

(** C3: a stored token whose expiry is in the past resolves to
    [ExpiredToken] whatever the [user_auth] collection holds: the outcome is
    the same for every content of the identity store, and it is never an
    identity. *)
Theorem expired_token_ignores_identities :
  forall (a scheme t : string) (w : World) (tok : TokenDoc.t) (e : Z),
    PyStr.split a = [scheme; t] ->
    PyStr.lower scheme = "bearer" ->
    find (Store.has_token t) (db_token w) = Some tok ->
    TokenDoc.expires_at tok = Some e ->
    e < current_time w ->
    forall users : list UserDoc.t,
      get_user_from_token (Some a) (with_user_auth users w)
      = (Raise ExpiredToken, tick (with_user_auth users w))
      /\ (forall u, fst (get_user_from_token (Some a) (with_user_auth users w))
                    <> Ok u).
Proof.
  intros a scheme t w tok e Hs Hl Hf He Hlt users.
  rewrite (get_user_from_token_parsed a scheme t _ Hs Hl).
  rewrite (resolve_token_with_expiry t (with_user_auth users w) tok e Hf He).
  change (current_time (with_user_auth users w)) with (current_time w).
  apply Z.ltb_lt in Hlt. rewrite Hlt.
  split; [reflexivity | intros u; discriminate].
Qed.

Lemma expired_token_ignores_identities_witness :
  get_user_from_token (Some "Bearer tokA")
    (with_user_auth [] (world_at 5001 [ann_doc] [ann_token 5000]))
  = (Raise ExpiredToken,
     tick (with_user_auth [] (world_at 5001 [ann_doc] [ann_token 5000]))).
Proof.
  apply (expired_token_ignores_identities "Bearer tokA" "Bearer" "tokA"
           (world_at 5001 [ann_doc] [ann_token 5000]) (ann_token 5000) 5000
           eq_refl eq_refl eq_refl eq_refl).
  vm_compute. reflexivity.
Defined.

(** *** Parsing of the credential *)

Section Parsing.

Lemma append_empty_right (s : string) : (s ++ "")%string = s.
Proof. induction s as [ | c s IH]; simpl; [reflexivity | now rewrite IH]. Qed.

Lemma append_assoc (s t u : string) :
  ((s ++ t) ++ u)%string = (s ++ (t ++ u))%string.
Proof. induction s as [ | c s IH]; simpl; [reflexivity | now rewrite IH]. Qed.

Lemma append_nonempty (s : string) (c : ascii) (t : string) :
  ((s ++ String c t) =? "")%string = false.
Proof. destruct s; reflexivity. Qed.

(** A run without whitespace is read into the current part. *)
Lemma split_from_run (s cur rest : string) :
  no_space s = true ->
  PyStr.split_from cur (s ++ rest) = PyStr.split_from (cur ++ s) rest.
Proof.
  revert cur. induction s as [ | c s IH]; intros cur Hn; simpl.
  - now rewrite append_empty_right.
  - simpl in Hn. apply andb_true_iff in Hn. destruct Hn as [Hc Hs].
    apply negb_true_iff in Hc. rewrite Hc.
    rewrite (IH _ Hs), append_assoc. reflexivity.
Qed.

(** A non-empty string without whitespace is one part. *)
Lemma split_one_part (t : string) :
  t <> "" -> no_space t = true -> PyStr.split t = [t].
Proof.
  intros Ht Hn. unfold PyStr.split.
  rewrite <- (append_empty_right t) at 1.
  rewrite (split_from_run t "" "" Hn). simpl.
  destruct t; [contradiction | reflexivity].
Qed.

(** Two such strings around one whitespace character are two parts. *)
Lemma split_two_parts (s t : string) (sp : ascii) :
  s <> "" -> no_space s = true ->
  t <> "" -> no_space t = true ->
  PyStr.isspace sp = true ->
  PyStr.split (s ++ String sp t) = [s; t].
Proof.
  intros Hs Hns Ht Hnt Hsp. unfold PyStr.split.
  rewrite (split_from_run s "" (String sp t) Hns). simpl.
  rewrite Hsp.
  destruct s as [ | c s']; [contradiction | ]. simpl.
  f_equal. apply (split_one_part t Ht Hnt).
Qed.

Lemma lower_char_keeps_space (c : ascii) :
  PyStr.isspace (PyStr.lower_char c) = PyStr.isspace c.
Proof.
  destruct c as [b0 b1 b2 b3 b4 b5 b6 b7].
  destruct b0, b1, b2, b3, b4, b5, b6, b7; reflexivity.
Qed.

Lemma lower_keeps_no_space (s : string) :
  no_space (PyStr.lower s) = no_space s.
Proof.
  induction s as [ | c s IH]; simpl; [reflexivity | ].
  now rewrite lower_char_keeps_space, IH.
Qed.

(** Every spelling of the scheme is non-empty and free of whitespace. *)
Lemma bearer_scheme_shape (scheme : string) :
  PyStr.lower scheme = "bearer" ->
  scheme <> "" /\ no_space scheme = true.
Proof.
  intros Hl. split.
  - intros E. rewrite E in Hl. discriminate Hl.
  - rewrite <- lower_keeps_no_space, Hl. reflexivity.
Qed.

(** The resolver's later steps never report a missing or malformed
    credential. *)
Lemma resolve_token_outcome (t : string) (w : World) :
  fst (resolve_token t w) = Raise InvalidToken
  \/ fst (resolve_token t w) = Raise ExpiredToken
  \/ fst (resolve_token t w) = Raise OrphanedToken
  \/ exists u, fst (resolve_token t w) = Ok u.
Proof.
  destruct (find (Store.has_token t) (db_token w)) as [tok | ] eqn:Hf.
  - destruct (TokenDoc.expires_at tok) as [e | ] eqn:He.
    + rewrite (resolve_token_with_expiry t w tok e Hf He). cbn [fst].
      destruct (e <? current_time w); [now right; left | ].
      right; right. apply identity_of_not_expired.
    + rewrite (resolve_token_without_expiry t w tok Hf He). cbn [fst].
      right; right. apply identity_of_not_expired.
  - rewrite (resolve_token_unknown t w Hf). now left.
Qed.

End Parsing.

(** C8, the claim as stated, fails: the empty credential is present and
    does not split into two parts, yet the resolver reports it as missing,
    not as malformed. *)
Lemma empty_credential_is_missing :
  List.length (PyStr.split "") <> 2%nat
  /\ fst (get_user_from_token (Some "") empty_world) = Raise MissingCredential
  /\ fst (get_user_from_token (Some "") empty_world)
     <> Raise MalformedCredential.
Proof.
  split; [discriminate | ]. split; [reflexivity | discriminate].
Qed.

(** C8, amended: an absent or empty credential fails with
    [MissingCredential]; a non-empty credential that does not split into
    exactly two whitespace-separated parts, or whose first part does not
    lower-case to "bearer", fails with [MalformedCredential]; otherwise the
    second part is the token string the resolver goes on with, and the
    outcome is neither of these two errors.  In particular every spelling of
    the scheme followed by one whitespace character and a non-empty token
    without whitespace parses, with that token. *)
Theorem credential_parsing :
  forall w : World,
    get_user_from_token None w = (Raise MissingCredential, w)
    /\ get_user_from_token (Some "") w = (Raise MissingCredential, w)
    /\ (forall a : string,
          a <> "" ->
          List.length (PyStr.split a) <> 2%nat
          \/ PyStr.lower (nth 0 (PyStr.split a) "") <> "bearer" ->
          get_user_from_token (Some a) w = (Raise MalformedCredential, w))
    /\ (forall a scheme t : string,
          PyStr.split a = [scheme; t] ->
          PyStr.lower scheme = "bearer" ->
          get_user_from_token (Some a) w = resolve_token t w
          /\ fst (get_user_from_token (Some a) w) <> Raise MissingCredential
          /\ fst (get_user_from_token (Some a) w)
             <> Raise MalformedCredential)
    /\ (forall (scheme t : string) (sp : ascii),
          PyStr.lower scheme = "bearer" ->
          PyStr.isspace sp = true ->
          t <> "" -> no_space t = true ->
          PyStr.split (scheme ++ String sp t) = [scheme; t]).
Proof.
  intros w. split; [reflexivity | ]. split; [reflexivity | ].
  split; [ | split].
  - intros a Ha Hbad. unfold get_user_from_token.
    destruct a as [ | c a']; [contradiction | ].
    cbn [PyStr.truthy String.eqb negb].
    destruct Hbad as [Hlen | Hlow].
    + apply Nat.eqb_neq in Hlen. rewrite Hlen. reflexivity.
    + apply String.eqb_neq in Hlow. rewrite Hlow.
      rewrite orb_true_r. reflexivity.
  - intros a scheme t Hs Hl.
    rewrite (get_user_from_token_parsed a scheme t w Hs Hl).
    split; [reflexivity | ].
    destruct (resolve_token_outcome t w) as [E | [E | [E | [u E]]]];
      rewrite E; split; discriminate.
  - intros scheme t sp Hl Hsp Ht Hnt.
    destruct (bearer_scheme_shape scheme Hl) as [Hne Hns].
    apply split_two_parts; assumption.
Qed.

Lemma credential_parsing_witness :
  get_user_from_token (Some "BEARER tokA") empty_world
  = resolve_token "tokA" empty_world.
Proof.
  apply (proj1 (proj2 (proj2 (proj2 (credential_parsing empty_world))))
           "BEARER tokA" "BEARER" "tokA"); reflexivity.
Defined.

Example malformed_three_parts :
  fst (get_user_from_token (Some "Bearer tokA extra") empty_world)
  = Raise MalformedCredential.
Proof. reflexivity. Qed.

Example malformed_scheme :
  fst (get_user_from_token (Some "Basic tokA") empty_world)
  = Raise MalformedCredential.
Proof. reflexivity. Qed.

Example malformed_blank :
  fst (get_user_from_token (Some "   ") empty_world)
  = Raise MalformedCredential.
Proof. reflexivity. Qed.

(** ** Signup *)

Section Signup.

Lemma signup_duplicate (payload : SignupRequest.t) (w : World)
      (u : UserDoc.t) :
  signup_existing payload w = Some u ->
  signup payload w = (Raise DuplicateEmail, w).
Proof.
  unfold signup_existing, signup, bind, Store.find_user_by_email.
  intros H. cbn. rewrite H. reflexivity.
Qed.

Lemma signup_fresh (payload : SignupRequest.t) (w : World) :
  signup_existing payload w = None ->
  signup payload w
  = (Ok (AuthResponse.Build (entropy w (entropy_reads w))
           (Role_str (SignupRequest.role payload))
           (SignupRequest.name payload)
           (SignupRequest.email payload)),
     signup_world payload w).
Proof.
  unfold signup_existing, signup, bind, Store.find_user_by_email.
  intros H. cbn. rewrite H. reflexivity.
Qed.

Lemma lower_char_idempotent (c : ascii) :
  PyStr.lower_char (PyStr.lower_char c) = PyStr.lower_char c.
Proof.
  destruct c as [b0 b1 b2 b3 b4 b5 b6 b7].
  destruct b0, b1, b2, b3, b4, b5, b6, b7; reflexivity.
Qed.

Lemma lower_idempotent (s : string) :
  PyStr.lower (PyStr.lower s) = PyStr.lower s.
Proof.
  induction s as [ | c s IH]; simpl; [reflexivity | ].
  now rewrite lower_char_idempotent, IH.
Qed.

Lemma find_none_iff {A} (p : A -> bool) (l : list A) :
  find p l = None <-> forall x, In x l -> p x = false.
Proof.
  split; [apply find_none | ].
  induction l as [ | x l IH]; intros H; simpl; [reflexivity | ].
  rewrite (H x (or_introl eq_refl)). apply IH.
  intros y Hy. apply H. now right.
Qed.

Lemma filter_nil_iff {A} (p : A -> bool) (l : list A) :
  filter p l = [] <-> forall x, In x l -> p x = false.
Proof.
  induction l as [ | x l IH]; simpl.
  - split; [intros _ y [] | reflexivity].
  - destruct (p x) eqn:E; split.
    + discriminate.
    + intros H. rewrite (H x (or_introl eq_refl)) in E. discriminate.
    + intros H y [<- | Hy]; [assumption | now apply IH].
    + intros H. apply IH. intros y Hy. apply H. now right.
Qed.

(** On normalized emails the store's exact lookup is a lookup up to
    letter case. *)
Lemma has_email_same_email (users : list UserDoc.t) (e : string)
      (d : UserDoc.t) :
  emails_normalized users -> In d users ->
  Store.has_email (PyStr.lower e) d = same_email e d.
Proof.
  intros Hn Hd. unfold Store.has_email, same_email.
  destruct (UserDoc.email d) as [e' | ] eqn:E; [ | reflexivity ].
  now rewrite (Hn d e' Hd E).
Qed.

Lemma lookup_none_iff (users : list UserDoc.t) (e : string) :
  emails_normalized users ->
  find (Store.has_email (PyStr.lower e)) users = None
  <-> identities_for e users = [].
Proof.
  intros Hn. unfold identities_for.
  rewrite find_none_iff, filter_nil_iff.
  split; intros H d Hd.
  - rewrite <- (has_email_same_email users e d Hn Hd). now apply H.
  - rewrite (has_email_same_email users e d Hn Hd). now apply H.
Qed.

Lemma identities_for_app (e : string) (users more : list UserDoc.t) :
  identities_for e (users ++ more)
  = (identities_for e users ++ identities_for e more)%list.
Proof. apply filter_app. Qed.

Lemma identities_for_same (e1 e2 : string) (users : list UserDoc.t) :
  PyStr.lower e1 = PyStr.lower e2 ->
  identities_for e1 users = identities_for e2 users.
Proof.
  intros E. unfold identities_for. apply filter_ext.
  intros d. unfold same_email. now rewrite E.
Qed.

Lemma same_email_new_doc (e : string) (payload : SignupRequest.t)
      (w : World) :
  same_email e (signup_user_doc payload w)
  = (PyStr.lower (SignupRequest.email payload) =? PyStr.lower e)%string.
Proof.
  unfold same_email, signup_user_doc. cbn. now rewrite lower_idempotent.
Qed.

(** One signup keeps the invariant and leaves exactly one identity for
    the email it was given. *)
Lemma signup_step (payload : SignupRequest.t) (w : World) :
  emails_normalized (db_user_auth w) ->
  emails_unique (db_user_auth w) ->
  emails_normalized (db_user_auth (snd (signup payload w)))
  /\ emails_unique (db_user_auth (snd (signup payload w)))
  /\ List.length (identities_for (SignupRequest.email payload)
                    (db_user_auth (snd (signup payload w)))) = 1%nat.
Proof.
  intros Hn Hu.
  destruct (signup_existing payload w) as [u | ] eqn:Hex.
  - rewrite (signup_duplicate payload w u Hex). cbn [snd].
    split; [assumption | ]. split; [assumption | ].
    pose proof (Hu (SignupRequest.email payload)) as Hle.
    destruct (identities_for (SignupRequest.email payload) (db_user_auth w))
      as [ | d l] eqn:Hid.
    + apply (lookup_none_iff _ _ Hn) in Hid.
      unfold signup_existing in Hex. rewrite Hid in Hex. discriminate.
    + simpl in *. lia.
  - rewrite (signup_fresh payload w Hex). cbn [snd signup_world db_user_auth].
    assert (Hnone : identities_for (SignupRequest.email payload)
                      (db_user_auth w) = []).
    { now apply (lookup_none_iff _ _ Hn). }
    split; [ | split].
    + intros d e Hd He. apply in_app_or in Hd. destruct Hd as [Hd | Hd].
      * now apply (Hn d e).
      * destruct Hd as [<- | []]. cbn in He. injection He as <-.
        apply lower_idempotent.
    + intros e. rewrite identities_for_app. rewrite length_app.
      unfold identities_for at 2. cbn [filter].
      rewrite same_email_new_doc.
      destruct (String.eqb_spec
                  (PyStr.lower (SignupRequest.email payload))
                  (PyStr.lower e)) as [E | E].
      * rewrite <- (identities_for_same _ _ (db_user_auth w) E), Hnone.
        simpl. lia.
      * pose proof (Hu e). simpl. lia.
    + rewrite identities_for_app, Hnone. unfold identities_for.
      cbn [filter]. rewrite same_email_new_doc, String.eqb_refl.
      reflexivity.
Qed.

(** No signup removes an identity. *)
Lemma signup_keeps_identities (payload : SignupRequest.t) (w : World)
      (e : string) :
  (List.length (identities_for e (db_user_auth w))
   <= List.length (identities_for e (db_user_auth (snd (signup payload w)))))%nat.
Proof.
  destruct (signup_existing payload w) as [u | ] eqn:Hex.
  - rewrite (signup_duplicate payload w u Hex). cbn [snd]. lia.
  - rewrite (signup_fresh payload w Hex). cbn [snd signup_world db_user_auth].
    rewrite identities_for_app, length_app. lia.
Qed.

Lemma run_signups_invariant (reqs : list SignupRequest.t) (w : World) :
  emails_normalized (db_user_auth w) ->
  emails_unique (db_user_auth w) ->
  emails_normalized (db_user_auth (run_signups reqs w))
  /\ emails_unique (db_user_auth (run_signups reqs w)).
Proof.
  revert w. induction reqs as [ | payload rest IH]; intros w Hn Hu.
  - split; assumption.
  - cbn [run_signups].
    destruct (signup_step payload w Hn Hu) as [Hn' [Hu' _]].
    now apply IH.
Qed.

Lemma run_signups_keeps_identities (reqs : list SignupRequest.t)
      (w : World) (e : string) :
  (List.length (identities_for e (db_user_auth w))
   <= List.length (identities_for e (db_user_auth (run_signups reqs w))))%nat.
Proof.
  revert w. induction reqs as [ | payload rest IH]; intros w.
  - cbn [run_signups]. lia.
  - cbn [run_signups].
    pose proof (signup_keeps_identities payload w e).
    pose proof (IH (snd (signup payload w))). lia.
Qed.

(** Each email signed up in a sequence ends with exactly one identity. *)
Lemma run_signups_one_identity (reqs : list SignupRequest.t) (w : World)
      (payload : SignupRequest.t) :
  emails_normalized (db_user_auth w) ->
  emails_unique (db_user_auth w) ->
  In payload reqs ->
  List.length (identities_for (SignupRequest.email payload)
                 (db_user_auth (run_signups reqs w))) = 1%nat.
Proof.
  intros Hn Hu Hin.
  destruct (run_signups_invariant reqs w Hn Hu) as [_ Hu'].
  apply Nat.le_antisymm; [apply Hu' | ].
  clear Hu'. revert w Hn Hu.
  induction reqs as [ | p rest IH]; intros w Hn Hu; [destruct Hin | ].
  cbn [run_signups].
  destruct (signup_step p w Hn Hu) as [Hn1 [Hu1 Hone]].
  destruct Hin as [<- | Hin].
  - rewrite <- Hone at 1. apply run_signups_keeps_identities.
  - now apply IH.
Qed.

(** After a successful signup the same email, in any letter case, is
    taken. *)
Lemma signup_twice (first second : SignupRequest.t) (w : World) :
  signup_existing first w = None ->
  PyStr.lower (SignupRequest.email second)
  = PyStr.lower (SignupRequest.email first) ->
  signup second (snd (signup first w))
  = (Raise DuplicateEmail, snd (signup first w)).
Proof.
  intros Hfresh Hsame.
  rewrite (signup_fresh first w Hfresh). cbn [snd].
  destruct (signup_existing second (signup_world first w)) as [u | ] eqn:E.
  - now apply (signup_duplicate second _ u).
  - exfalso. unfold signup_existing in E.
    rewrite find_none_iff in E.
    specialize (E (signup_user_doc first w)).
    cbn [signup_world db_user_auth] in E.
    rewrite Hsame in E. unfold Store.has_email in E. cbn in E.
    rewrite String.eqb_refl in E.
    assert (true = false) as X; [ | discriminate X].
    apply E. apply in_or_app. right. now left.
Qed.

End Signup.

(** C6: signup preserves the uniqueness of emails.  A signup whose email in
    lower case matches a stored identity's email fails with [DuplicateEmail]
    and changes nothing; after a successful signup a second one with the
    same email in any letter case fails in that way; over a store whose
    emails are normalized and unique, any sequence of signups keeps them so
    and leaves exactly one identity for each email that was signed up; and
    this holds in particular for every sequence run from an empty store. *)
Theorem signup_email_unique :
  (forall (payload : SignupRequest.t) (w : World) (u : UserDoc.t),
     signup_existing payload w = Some u ->
     signup payload w = (Raise DuplicateEmail, w))
  /\ (forall (first second : SignupRequest.t) (w : World),
        signup_existing first w = None ->
        PyStr.lower (SignupRequest.email second)
        = PyStr.lower (SignupRequest.email first) ->
        signup second (snd (signup first w))
        = (Raise DuplicateEmail, snd (signup first w)))
  /\ (forall (reqs : list SignupRequest.t) (w : World),
        emails_normalized (db_user_auth w) ->
        emails_unique (db_user_auth w) ->
        emails_normalized (db_user_auth (run_signups reqs w))
        /\ emails_unique (db_user_auth (run_signups reqs w))
        /\ (forall payload,
              In payload reqs ->
              List.length (identities_for (SignupRequest.email payload)
                             (db_user_auth (run_signups reqs w))) = 1%nat))
  /\ (forall (reqs : list SignupRequest.t) (w : World),
        db_user_auth w = [] ->
        emails_unique (db_user_auth (run_signups reqs w))
        /\ (forall payload,
              In payload reqs ->
              List.length (identities_for (SignupRequest.email payload)
                             (db_user_auth (run_signups reqs w))) = 1%nat)).
Proof.
  split; [exact signup_duplicate | ].
  split; [exact signup_twice | ].
  split.
  - intros reqs w Hn Hu.
    destruct (run_signups_invariant reqs w Hn Hu) as [Hn' Hu'].
    split; [assumption | ]. split; [assumption | ].
    intros payload. now apply run_signups_one_identity.
  - intros reqs w Hempty.
    assert (Hn : emails_normalized (db_user_auth w)).
    { rewrite Hempty. intros d e []. }
    assert (Hu : emails_unique (db_user_auth w)).
    { rewrite Hempty. intros e. simpl. lia. }
    split; [now apply run_signups_invariant | ].
    intros payload. now apply run_signups_one_identity.
Qed.

Lemma signup_email_unique_witness :
  List.length (identities_for (SignupRequest.email ann_again)
     (db_user_auth
        (run_signups [ann_request; bob_request; ann_again] empty_world)))
  = 1%nat.
Proof.
  refine (proj2 (proj2 (proj1 (proj2 (proj2 signup_email_unique))
            [ann_request; bob_request; ann_again] empty_world _ _))
            ann_again _).
  - intros d e [].
  - intros e. simpl. lia.
  - simpl. right. right. left. reflexivity.
Defined.

Example second_signup_rejected :
  fst (signup ann_again (snd (signup ann_request empty_world)))
  = Raise DuplicateEmail
  /\ List.length (db_user_auth
                    (run_signups [ann_request; ann_again] empty_world))
     = 1%nat.
Proof. vm_compute. split; reflexivity. Qed.

(** ** Self-provisioned administrators *)

Section SelfSignup.

Lemma find_app_last {A} (p : A -> bool) (l : list A) (x : A) :
  find p l = None ->
  find p (l ++ [x]) = if p x then Some x else None.
Proof.
  induction l as [ | y l IH]; simpl; [reflexivity | ].
  destruct (p y); [discriminate | exact IH].
Qed.

Lemma IdValue_eqb_refl (v : IdValue) : IdValue_eqb v v = true.
Proof. destruct v; simpl; apply String.eqb_refl. Qed.

(** The session a fresh signup issues resolves to the identity it
    created. *)
Lemma signup_then_resolve (payload : SignupRequest.t) (w : World) :
  outside_inputs_fresh w ->
  get_user_from_token
    (Some ("Bearer " ++ entropy w (entropy_reads w)))
    (signup_world payload w)
  = (Ok (UserOut.Build
           (new_oid w (oid_reads w))
           (Some (SignupRequest.name payload))
           (Some (PyStr.lower (SignupRequest.email payload)))
           (Some (Role_str (SignupRequest.role payload)))
           true),
     tick (signup_world payload w)).
Proof.
  intros [Hne [Hns [Hft [Hoid [Hfs [Hfo Hclk]]]]]].
  rewrite (get_user_from_token_parsed _ "Bearer"
             (entropy w (entropy_reads w))).
  2:{ apply (split_two_parts "Bearer" _ " "%char);
        try assumption; try reflexivity. discriminate. }
  2:{ reflexivity. }
  rewrite (resolve_token_with_expiry _ _ (signup_token_doc payload w)
             (clock w (2 + clock_reads w)%nat + seven_days)).
  2:{ cbn [signup_world db_token]. rewrite (find_app_last _ _ _ Hft).
      unfold Store.has_token. cbn [signup_token_doc TokenDoc.token].
      now rewrite String.eqb_refl. }
  2:{ reflexivity. }
  replace (_ <? current_time (signup_world payload w)) with false.
  2:{ symmetry. apply Z.ltb_ge. exact Hclk. }
  f_equal. unfold identity_of.
  cbn [signup_world db_user_auth signup_token_doc TokenDoc.user_id].
  rewrite (find_app_last _ _ _ Hfs), Hoid, (find_app_last _ _ _ Hfo).
  unfold Store.has_id.
  cbn [signup_user_doc UserDoc._id IdValue_eqb].
  rewrite String.eqb_refl. reflexivity.
Qed.

End SelfSignup.

(** C9: signup lets the caller choose the role.  A signup with role
    "admin" and a fresh email succeeds: it returns the generated token with
    role "admin", stores an identity with role "admin" and a session with
    role snapshot "admin" for that token.  With the outside inputs of a real
    run, that token then passes every gate whose allowed roles include
    "admin". *)
Theorem admin_self_signup :
  forall (payload : SignupRequest.t) (w : World),
    SignupRequest.role payload = admin ->
    signup_existing payload w = None ->
    signup payload w
    = (Ok (AuthResponse.Build (entropy w (entropy_reads w)) "admin"
             (SignupRequest.name payload) (SignupRequest.email payload)),
       signup_world payload w)
    /\ db_user_auth (signup_world payload w)
       = (db_user_auth w ++ [signup_user_doc payload w])%list
    /\ UserDoc.role (signup_user_doc payload w) = Some "admin"
    /\ db_token (signup_world payload w)
       = (db_token w ++ [signup_token_doc payload w])%list
    /\ TokenDoc.token (signup_token_doc payload w)
       = entropy w (entropy_reads w)
    /\ TokenDoc.role (signup_token_doc payload w) = Some "admin"
    /\ (outside_inputs_fresh w ->
        forall allowed : list string,
          In "admin" allowed ->
          guarded allowed
            (Some ("Bearer " ++ entropy w (entropy_reads w)))
            (signup_world payload w)
          = (Ok (UserOut.Build
                   (new_oid w (oid_reads w))
                   (Some (SignupRequest.name payload))
                   (Some (PyStr.lower (SignupRequest.email payload)))
                   (Some "admin")
                   true),
             tick (signup_world payload w))).
Proof.
  intros payload w Hrole Hfresh.
  rewrite (signup_fresh payload w Hfresh).
  split; [rewrite Hrole; reflexivity | ].
  split; [reflexivity | ].
  split; [cbn; rewrite Hrole; reflexivity | ].
  split; [reflexivity | ].
  split; [reflexivity | ].
  split; [cbn; rewrite Hrole; reflexivity | ].
  intros Hin allowed Hadm.
  unfold guarded, bind.
  rewrite (signup_then_resolve payload w Hin), Hrole. cbn [Role_str].
  unfold lift, require_roles. cbn [UserOut.role role_in].
  replace (existsb (String.eqb "admin") allowed) with true; [reflexivity | ].
  symmetry. apply existsb_exists. exists "admin". split; [assumption | ].
  reflexivity.
Qed.

Lemma admin_self_signup_witness :
  guarded ["admin"]
    (Some ("Bearer " ++ entropy empty_world (entropy_reads empty_world)))
    (signup_world admin_request empty_world)
  = (Ok (UserOut.Build
           (new_oid empty_world (oid_reads empty_world))
           (Some (SignupRequest.name admin_request))
           (Some (PyStr.lower (SignupRequest.email admin_request)))
           (Some "admin")
           true),
     tick (signup_world admin_request empty_world)).
Proof.
  refine (proj2 (proj2 (proj2 (proj2 (proj2 (proj2
            (admin_self_signup admin_request empty_world eq_refl eq_refl))))))
            _ ["admin"] _).
  - unfold outside_inputs_fresh. repeat split; try reflexivity.
    + discriminate.
    + vm_compute. discriminate.
  - simpl. left. reflexivity.
Defined.

Example admin_self_signup_passes_gate :
  fst (guarded ["admin"] (Some "Bearer aZq3_session-token")
         (snd (signup admin_request empty_world)))
  = Ok (UserOut.Build "64b0c0ffee00000000000000" (Some "Mallory")
          (Some "mallory@x.com") (Some "admin") true).
Proof. vm_compute. reflexivity. Qed.

Example outside_inputs_fresh_empty_world : outside_inputs_fresh empty_world.
Proof.
  unfold outside_inputs_fresh. repeat split; try reflexivity.
  - discriminate.
  - vm_compute. discriminate.
Qed.

(** * Further properties of the code *)

(** ** The resolver, case by case *)

Section ResolverCases.

(** A credential is missing, malformed, or parsed into a token string. *)
Lemma credential_cases (a : option string) (w : World) :
  get_user_from_token a w = (Raise MissingCredential, w)
  \/ get_user_from_token a w = (Raise MalformedCredential, w)
  \/ exists s scheme t,
       a = Some s /\ PyStr.split s = [scheme; t]
       /\ PyStr.lower scheme = "bearer"
       /\ get_user_from_token a w = resolve_token t w.
Proof.
  destruct a as [s | ]; [ | now left ].
  destruct s as [ | c s']; [now left | ].
  unfold get_user_from_token. cbn [PyStr.truthy String.eqb negb].
  destruct (PyStr.split (String c s')) as [ | p0 [ | p1 [ | p2 l]]] eqn:Hs;
    try (right; left; reflexivity).
  cbn [List.length Nat.eqb negb nth orb].
  destruct (String.eqb_spec (PyStr.lower p0) "bearer") as [Hl | Hl].
  - right; right. exists (String c s'), p0, p1. repeat split; assumption.
  - right; left. reflexivity.
Qed.

(** A token string is unknown, names a session without expiry, or names a
    session with one. *)
Lemma resolve_token_cases (t : string) (w : World) :
  (find (Store.has_token t) (db_token w) = None
   /\ resolve_token t w = (Raise InvalidToken, w))
  \/ (exists tok,
        find (Store.has_token t) (db_token w) = Some tok
        /\ TokenDoc.expires_at tok = None
        /\ resolve_token t w = (identity_of tok (db_user_auth w), w))
  \/ (exists tok e,
        find (Store.has_token t) (db_token w) = Some tok
        /\ TokenDoc.expires_at tok = Some e
        /\ resolve_token t w
           = (if e <? current_time w then Raise ExpiredToken
              else identity_of tok (db_user_auth w), tick w)).
Proof.
  destruct (find (Store.has_token t) (db_token w)) as [tok | ] eqn:Hf.
  - destruct (TokenDoc.expires_at tok) as [e | ] eqn:He.
    + right; right. exists tok, e. repeat split; try assumption.
      now apply resolve_token_with_expiry.
    + right; left. exists tok. repeat split; try assumption.
      now apply resolve_token_without_expiry.
  - left. split; [reflexivity | now apply resolve_token_unknown].
Qed.

Lemma identity_of_cases (tok : TokenDoc.t) (users : list UserDoc.t) :
  (exists user,
     find (Store.has_id (TokenDoc.user_id tok)) users = Some user
     /\ identity_of tok users = Ok (user_out user))
  \/ (find (Store.has_id (TokenDoc.user_id tok)) users = None
      /\ exists oid user,
           ObjectId (TokenDoc.user_id tok) = Some oid
           /\ find (Store.has_id oid) users = Some user
           /\ identity_of tok users = Ok (user_out user))
  \/ (find (Store.has_id (TokenDoc.user_id tok)) users = None
      /\ (forall oid, ObjectId (TokenDoc.user_id tok) = Some oid ->
                      find (Store.has_id oid) users = None)
      /\ identity_of tok users = Raise OrphanedToken).
Proof.
  unfold identity_of, user_out.
  destruct (find (Store.has_id (TokenDoc.user_id tok)) users)
    as [user | ] eqn:E1.
  - left. exists user. split; reflexivity.
  - destruct (ObjectId (TokenDoc.user_id tok)) as [oid | ] eqn:E2.
    + destruct (find (Store.has_id oid) users) as [user | ] eqn:E3.
      * right; left. split; [reflexivity | ].
        exists oid, user. repeat split; assumption.
      * right; right. split; [reflexivity | ]. split; [ | reflexivity ].
        intros o Ho. injection Ho as <-. assumption.
    + right; right. split; [reflexivity | ]. split; [ | reflexivity ].
      intros o Ho. discriminate Ho.
Qed.

(** A parsed credential whose session is stored and unexpired resolves as
    the identity lookup says; the clock is read when an expiry is set. *)
Lemma resolve_live (a scheme t : string) (w : World) (tok : TokenDoc.t) :
  PyStr.split a = [scheme; t] ->
  PyStr.lower scheme = "bearer" ->
  find (Store.has_token t) (db_token w) = Some tok ->
  unexpired tok (current_time w) ->
  fst (get_user_from_token (Some a) w) = identity_of tok (db_user_auth w).
Proof.
  intros Hs Hl Hf Hu.
  rewrite (get_user_from_token_parsed a scheme t w Hs Hl).
  destruct (TokenDoc.expires_at tok) as [e | ] eqn:He.
  - rewrite (resolve_token_with_expiry t w tok e Hf He). cbn [fst].
    specialize (Hu e He).
    destruct (Z.ltb_spec e (current_time w)); [lia | reflexivity].
  - now rewrite (resolve_token_without_expiry t w tok Hf He).
Qed.

(** The world the resolver leaves: the one it found, or that one with the
    clock read once. *)
Lemma resolver_world (a : option string) (w : World) :
  snd (get_user_from_token a w) = w
  \/ snd (get_user_from_token a w) = tick w.
Proof.
  destruct (credential_cases a w) as [E | [E | [s [scheme [t [_ [_ [_ E]]]]]]]];
    rewrite E; try (left; reflexivity).
  destruct (resolve_token_cases t w)
    as [[_ R] | [[tok [_ [_ R]]] | [tok [e [_ [_ R]]]]]];
    rewrite R; [left | left | right]; reflexivity.
Qed.

Lemma resolver_collections (a : option string) (w : World) :
  db_user_auth (snd (get_user_from_token a w)) = db_user_auth w
  /\ db_token (snd (get_user_from_token a w)) = db_token w.
Proof.
  destruct (resolver_world a w) as [E | E]; rewrite E; split; reflexivity.
Qed.

Lemma guarded_world (allowed : list string) (a : option string) (w : World) :
  snd (guarded allowed a w) = snd (get_user_from_token a w).
Proof.
  unfold guarded, bind, lift.
  destruct (get_user_from_token a w) as [[u | e] w']; reflexivity.
Qed.

Lemma guarded_result (allowed : list string) (a : option string) (w : World) :
  fst (guarded allowed a w)
  = match fst (get_user_from_token a w) with
    | Ok u => require_roles allowed u
    | Raise e => Raise e
    end.
Proof.
  unfold guarded, bind, lift.
  destruct (get_user_from_token a w) as [[u | e] w']; reflexivity.
Qed.

(** Every error of the resolver is a 401. *)
Lemma resolver_errors (a : option string) (w : World) (e : Exn) :
  fst (get_user_from_token a w) = Raise e ->
  exists detail, e = HTTPException 401 detail.
Proof.
  destruct (credential_cases a w) as [E | [E | [s [scheme [t [_ [_ [_ E]]]]]]]];
    rewrite E; cbn [fst].
  - intros H. injection H as <-. eexists. reflexivity.
  - intros H. injection H as <-. eexists. reflexivity.
  - destruct (resolve_token_outcome t w) as [R | [R | [R | [u R]]]];
      rewrite R; intros H; try discriminate H;
      injection H as <-; eexists; reflexivity.
Qed.

Lemma find_app_some {A} (p : A -> bool) (l more : list A) (x : A) :
  find p l = Some x -> find p (l ++ more) = Some x.
Proof.
  induction l as [ | y l IH]; simpl; [discriminate | ].
  destruct (p y); [trivial | exact IH].
Qed.

Lemma find_app_none {A} (p : A -> bool) (l more : list A) :
  find p l = None -> find p (l ++ more) = find p more.
Proof.
  induction l as [ | y l IH]; simpl; [reflexivity | ].
  destruct (p y); [discriminate | exact IH].
Qed.

(** Identities added under ObjectIds do not change what a session that
    resolved resolves to. *)
Lemma identity_of_app (tok : TokenDoc.t) (users more : list UserDoc.t)
      (u : UserOut.t) :
  (forall d, In d more -> exists hex, UserDoc._id d = IdOid hex) ->
  identity_of tok users = Ok u ->
  identity_of tok (users ++ more) = Ok u.
Proof.
  intros Hmore H.
  destruct (identity_of_cases tok users)
    as [[user [F E]] | [[F [oid [user [O [G E]]]]] | [_ [_ E]]]].
  - rewrite E in H. rewrite <- H. unfold identity_of.
    now rewrite (find_app_some _ _ more _ F).
  - rewrite E in H. rewrite <- H. unfold identity_of.
    destruct (TokenDoc.user_id tok) as [s | hex] eqn:Eid.
    + rewrite (find_app_none _ _ more F).
      replace (find (Store.has_id (IdStr s)) more) with (@None UserDoc.t).
      * now rewrite O, (find_app_some _ _ more _ G).
      * symmetry. apply find_none_iff. intros d Hd.
        destruct (Hmore d Hd) as [hex Hid].
        unfold Store.has_id. now rewrite Hid.
    + simpl in O. injection O as <-. rewrite G in F. discriminate F.
  - rewrite E in H. discriminate H.
Qed.

(** What resolved in [w] resolves to the same identity in a world whose
    collections extend those of [w], unless the session has expired by
    then. *)
Lemma resolve_stable (a : option string) (w w' : World) (u : UserOut.t)
      (users : list UserDoc.t) (tokens : list TokenDoc.t) :
  fst (get_user_from_token a w) = Ok u ->
  db_user_auth w' = (db_user_auth w ++ users)%list ->
  db_token w' = (db_token w ++ tokens)%list ->
  (forall d, In d users -> exists hex, UserDoc._id d = IdOid hex) ->
  (fst (get_user_from_token a w') = Ok u
   \/ fst (get_user_from_token a w') = Raise ExpiredToken)
  /\ (current_time w' <= current_time w ->
      fst (get_user_from_token a w') = Ok u).
Proof.
  intros H Hu Ht Hids.
  destruct (credential_cases a w)
    as [E | [E | [s [scheme [t [-> [Hs [Hl E]]]]]]]];
    try (rewrite E in H; discriminate H).
  rewrite E in H.
  rewrite (get_user_from_token_parsed s scheme t w' Hs Hl).
  destruct (resolve_token_cases t w)
    as [[_ R] | [[tok [F [X R]]] | [tok [e [F [X R]]]]]];
    rewrite R in H; cbn [fst] in H; try discriminate H.
  - assert (F' : find (Store.has_token t) (db_token w') = Some tok).
    { rewrite Ht. now apply find_app_some. }
    rewrite (resolve_token_without_expiry t w' tok F' X). cbn [fst].
    rewrite Hu, (identity_of_app tok _ users u Hids H).
    split; [now left | reflexivity].
  - assert (F' : find (Store.has_token t) (db_token w') = Some tok).
    { rewrite Ht. now apply find_app_some. }
    rewrite (resolve_token_with_expiry t w' tok e F' X). cbn [fst].
    destruct (Z.ltb_spec e (current_time w)) as [L | L];
      [discriminate H | ].
    rewrite Hu, (identity_of_app tok _ users u Hids H).
    destruct (Z.ltb_spec e (current_time w')) as [L' | L'].
    + split; [now right | lia].
    + split; [now left | reflexivity].
Qed.

End ResolverCases.

(** X1 (lines 46-88, 210-212 of [main.py]): resolution is a pure read.
    The resolver, the gate in front of an endpoint and [/auth/me] leave both
    collections and both generators as they were; the only trace is at most
    one reading of the clock. *)
Theorem resolution_is_read_only :
  forall (a : option string) (allowed : list string) (w : World),
    (snd (get_user_from_token a w) = w
     \/ snd (get_user_from_token a w) = tick w)
    /\ snd (guarded allowed a w) = snd (get_user_from_token a w)
    /\ me a w = get_user_from_token a w
    /\ db_user_auth (snd (guarded allowed a w)) = db_user_auth w
    /\ db_token (snd (guarded allowed a w)) = db_token w
    /\ entropy_reads (snd (guarded allowed a w)) = entropy_reads w
    /\ oid_reads (snd (guarded allowed a w)) = oid_reads w.
Proof.
  intros a allowed w.
  split; [apply resolver_world | ].
  split; [apply guarded_world | ].
  split.
  { unfold me, bind, ret.
    destruct (get_user_from_token a w) as [[u | e] w']; reflexivity. }
  rewrite guarded_world.
  destruct (resolver_world a w) as [E | E]; rewrite E; repeat split.
Qed.

(** X2 (lines 46-80): resolution is idempotent up to expiry.  When a
    credential has resolved to an identity, resolving it again right after
    gives the same identity, unless the session has expired in between; if
    the clock does not read later the second time, it gives the same
    identity. *)
Theorem resolve_twice :
  forall (a : option string) (w : World) (u : UserOut.t),
    fst (get_user_from_token a w) = Ok u ->
    (fst (get_user_from_token a (snd (get_user_from_token a w))) = Ok u
     \/ fst (get_user_from_token a (snd (get_user_from_token a w)))
        = Raise ExpiredToken)
    /\ (current_time (snd (get_user_from_token a w)) <= current_time w ->
        fst (get_user_from_token a (snd (get_user_from_token a w))) = Ok u).
Proof.
  intros a w u H.
  destruct (resolver_collections a w) as [Hu Ht].
  apply (resolve_stable a w _ u [] []); try assumption.
  - now rewrite app_nil_r.
  - now rewrite app_nil_r.
  - intros d [].
Qed.

Lemma resolve_twice_witness :
  fst (get_user_from_token (Some "Bearer tokA")
         (snd (get_user_from_token (Some "Bearer tokA")
                 (world_at 5000 [ann_doc] [ann_token 6000]))))
  = Ok ann_out.
Proof.
  apply (resolve_twice (Some "Bearer tokA")
           (world_at 5000 [ann_doc] [ann_token 6000]) ann_out).
  - reflexivity.
  - vm_compute. discriminate.
Defined.

(** X3 (lines 54-56): a parsed credential fails with [InvalidToken] exactly
    when no stored session carries its token string, and then nothing is
    read or written, whatever identities are stored. *)
Theorem unknown_token_is_invalid :
  forall (a scheme t : string) (w : World),
    PyStr.split a = [scheme; t] ->
    PyStr.lower scheme = "bearer" ->
    (fst (get_user_from_token (Some a) w) = Raise InvalidToken
       <-> find (Store.has_token t) (db_token w) = None)
    /\ (find (Store.has_token t) (db_token w) = None ->
        forall users,
          get_user_from_token (Some a) (with_user_auth users w)
          = (Raise InvalidToken, with_user_auth users w)).
Proof.
  intros a scheme t w Hs Hl. split.
  - rewrite (get_user_from_token_parsed a scheme t w Hs Hl).
    destruct (resolve_token_cases t w)
      as [[F R] | [[tok [F [X R]]] | [tok [e [F [X R]]]]]];
      rewrite R, F; cbn [fst].
    + split; reflexivity.
    + split; [ | discriminate].
      destruct (identity_of_not_expired tok (db_user_auth w)) as [E | [u E]];
        rewrite E; discriminate.
    + split; [ | discriminate].
      destruct (e <? current_time w); [discriminate | ].
      destruct (identity_of_not_expired tok (db_user_auth w)) as [E | [u E]];
        rewrite E; discriminate.
  - intros F users.
    rewrite (get_user_from_token_parsed a scheme t _ Hs Hl).
    now apply resolve_token_unknown.
Qed.

Lemma unknown_token_is_invalid_witness :
  fst (get_user_from_token (Some "Bearer toka")
         (world_at 5000 [ann_doc] [ann_token 6000]))
  = Raise InvalidToken.
Proof.
  apply (proj1 (unknown_token_is_invalid "Bearer toka" "Bearer" "toka"
                  (world_at 5000 [ann_doc] [ann_token 6000])
                  eq_refl eq_refl)).
  reflexivity.
Defined.

(** X4 (lines 57-58): a stored session without an expiry never expires.
    The clock is not read, the world is left as it was, and the outcome (an
    identity or [OrphanedToken]) is the same at every time. *)
Theorem session_without_expiry_never_expires :
  forall (a scheme t : string) (w : World) (tok : TokenDoc.t),
    PyStr.split a = [scheme; t] ->
    PyStr.lower scheme = "bearer" ->
    find (Store.has_token t) (db_token w) = Some tok ->
    TokenDoc.expires_at tok = None ->
    snd (get_user_from_token (Some a) w) = w
    /\ fst (get_user_from_token (Some a) w) <> Raise ExpiredToken
    /\ (fst (get_user_from_token (Some a) w) = Raise OrphanedToken
        \/ exists u, fst (get_user_from_token (Some a) w) = Ok u)
    /\ (forall w2,
          db_user_auth w2 = db_user_auth w ->
          db_token w2 = db_token w ->
          fst (get_user_from_token (Some a) w2)
          = fst (get_user_from_token (Some a) w)).
Proof.
  intros a scheme t w tok Hs Hl Hf He.
  rewrite (get_user_from_token_parsed a scheme t w Hs Hl).
  rewrite (resolve_token_without_expiry t w tok Hf He). cbn [fst snd].
  split; [reflexivity | ]. split; [ | split].
  - destruct (identity_of_not_expired tok (db_user_auth w)) as [E | [u E]];
      rewrite E; discriminate.
  - apply identity_of_not_expired.
  - intros w2 Hu Ht.
    rewrite (get_user_from_token_parsed a scheme t w2 Hs Hl).
    rewrite <- Ht in Hf.
    rewrite (resolve_token_without_expiry t w2 tok Hf He). cbn [fst].
    now rewrite Hu.
Qed.

Lemma session_without_expiry_never_expires_witness :
  fst (get_user_from_token (Some "Bearer tokE")
         (world_at 99999999999999 [ann_doc] [eternal_token]))
  <> Raise ExpiredToken.
Proof.
  apply (session_without_expiry_never_expires "Bearer tokE" "Bearer" "tokE"
           (world_at 99999999999999 [ann_doc] [eternal_token]) eternal_token
           eq_refl eq_refl eq_refl eq_refl).
Defined.

(** X5 (lines 59-71): for a stored, unexpired session the resolver fails
    with [OrphanedToken] exactly when no identity is stored under the
    session's user identifier, neither as it stands nor as the ObjectId it
    names. *)
Theorem orphaned_token_iff :
  forall (a scheme t : string) (w : World) (tok : TokenDoc.t),
    PyStr.split a = [scheme; t] ->
    PyStr.lower scheme = "bearer" ->
    find (Store.has_token t) (db_token w) = Some tok ->
    unexpired tok (current_time w) ->
    fst (get_user_from_token (Some a) w) = Raise OrphanedToken
    <-> (find (Store.has_id (TokenDoc.user_id tok)) (db_user_auth w) = None
         /\ forall oid, ObjectId (TokenDoc.user_id tok) = Some oid ->
                        find (Store.has_id oid) (db_user_auth w) = None).
Proof.
  intros a scheme t w tok Hs Hl Hf Hu.
  rewrite (resolve_live a scheme t w tok Hs Hl Hf Hu).
  destruct (identity_of_cases tok (db_user_auth w))
    as [[user [F E]] | [[F [oid [user [O [G E]]]]] | [F [N E]]]];
    rewrite E.
  - split; [discriminate | ]. intros [F' _]. rewrite F in F'. discriminate.
  - split; [discriminate | ]. intros [_ N]. rewrite (N oid O) in G.
    discriminate.
  - split; [ | reflexivity]. intros _. split; assumption.
Qed.

Lemma orphaned_token_iff_witness :
  fst (get_user_from_token (Some "Bearer tokA")
         (world_at 5000 [carl_doc] [ann_token 6000]))
  = Raise OrphanedToken.
Proof.
  apply (proj2 (orphaned_token_iff "Bearer tokA" "Bearer" "tokA"
                  (world_at 5000 [carl_doc] [ann_token 6000])
                  (ann_token 6000) eq_refl eq_refl eq_refl
                  ltac:(intros e H; injection H as <-; vm_compute;
                        discriminate))).
  split; [reflexivity | ].
  intros oid H. injection H as <-. reflexivity.
Defined.

(** X6 (lines 59-80): the order of the identity lookup.  For a stored,
    unexpired session the identity stored under the session's user
    identifier as it stands is returned first; only when there is none, the
    identity stored under the ObjectId that identifier names.  The view
    returned carries the identifier as a string and the stored name, email
    and role. *)
Theorem identity_lookup_order :
  forall (a scheme t : string) (w : World) (tok : TokenDoc.t),
    PyStr.split a = [scheme; t] ->
    PyStr.lower scheme = "bearer" ->
    find (Store.has_token t) (db_token w) = Some tok ->
    unexpired tok (current_time w) ->
    (forall user,
       find (Store.has_id (TokenDoc.user_id tok)) (db_user_auth w)
       = Some user ->
       fst (get_user_from_token (Some a) w) = Ok (user_out user))
    /\ (forall oid user,
          find (Store.has_id (TokenDoc.user_id tok)) (db_user_auth w)
          = None ->
          ObjectId (TokenDoc.user_id tok) = Some oid ->
          find (Store.has_id oid) (db_user_auth w) = Some user ->
          fst (get_user_from_token (Some a) w) = Ok (user_out user)).
Proof.
  intros a scheme t w tok Hs Hl Hf Hu.
  rewrite (resolve_live a scheme t w tok Hs Hl Hf Hu).
  destruct (identity_of_cases tok (db_user_auth w))
    as [[user [F E]] | [[F [oid [user [O [G E]]]]] | [F [N E]]]];
    rewrite E; split.
  - intros user' F'. rewrite F in F'. injection F' as <-. reflexivity.
  - intros oid user' F'. rewrite F in F'. discriminate.
  - intros user' F'. rewrite F in F'. discriminate.
  - intros oid' user' _ O' G'. rewrite O in O'. injection O' as <-.
    rewrite G in G'. injection G' as <-. reflexivity.
  - intros user' F'. rewrite F in F'. discriminate.
  - intros oid' user' _ O' G'. rewrite (N oid' O') in G'. discriminate.
Qed.

Lemma identity_lookup_order_witness :
  fst (get_user_from_token (Some "Bearer tokA")
         (world_at 5000 [ann_doc; shadow_doc] [ann_token 6000]))
  = Ok (user_out shadow_doc).
Proof.
  apply (proj1 (identity_lookup_order "Bearer tokA" "Bearer" "tokA"
                  (world_at 5000 [ann_doc; shadow_doc] [ann_token 6000])
                  (ann_token 6000) eq_refl eq_refl eq_refl
                  ltac:(intros e H; injection H as <-; vm_compute;
                        discriminate))).
  reflexivity.
Defined.

Example identity_by_object_id :
  fst (get_user_from_token (Some "Bearer tokA")
         (world_at 5000 [carl_doc; ann_doc] [ann_token 6000]))
  = Ok ann_out.
Proof. reflexivity. Qed.




(** ** The issuer and the store *)

Section Issuer.


(** What a login that passes the three checks does. *)
Lemma login_passed (payload : LoginRequest.t) (w : World) (user : UserDoc.t) :
  login_user payload w = Some user ->
  verify_password (LoginRequest.password payload)
    (UserDoc.get_password_hash user "") = true ->
  UserDoc.get_is_active user true = true ->
  login payload w
  = (AuthResponse.make (Some (entropy w (entropy_reads w)))
       (UserDoc.role user) (UserDoc.name user) (UserDoc.email user),
     issued_world (py_str (UserDoc._id user)) (UserDoc.role user) w).
Proof.
  intros Hu Hv Ha. rewrite login_unfold, Hu, Hv, Ha. reflexivity.
Qed.

(** The world a login leaves: the one it found, or that one with one
    session issued. *)
Lemma login_world (payload : LoginRequest.t) (w : World) :
  snd (login payload w) = w
  \/ exists user,
       login_user payload w = Some user
       /\ snd (login payload w)
          = issued_world (py_str (UserDoc._id user)) (UserDoc.role user) w.
Proof.
  rewrite login_unfold.
  destruct (login_user payload w) as [user | ]; [ | now left ].
  destruct (verify_password _ _); [ | now left ].
  destruct (UserDoc.get_is_active user true); [ | now left ].
  right. exists user. split; reflexivity.
Qed.

(** The world a signup leaves. *)
Lemma signup_world_cases (payload : SignupRequest.t) (w : World) :
  snd (signup payload w) = w
  \/ snd (signup payload w) = signup_world payload w.
Proof.
  destruct (signup_existing payload w) as [u | ] eqn:E.
  - left. now rewrite (signup_duplicate payload w u E).
  - right. now rewrite (signup_fresh payload w E).
Qed.

End Issuer.



Example session_valid_on_the_last_instant :
  fst (get_user_from_token (Some "Bearer aZq3_session-token")
         (world_at (1000 + seven_days)
            [] (db_token (snd (create_token "u1" None empty_world)))))
  = Raise OrphanedToken
  /\ fst (get_user_from_token (Some "Bearer aZq3_session-token")
            (world_at (1001 + seven_days)
               [] (db_token (snd (create_token "u1" None empty_world)))))
     = Raise ExpiredToken.
Proof. split; reflexivity. Qed.


(** X10 (lines 46-80, 176-207): no single-session enforcement.  A
    credential that resolves to an identity still resolves to that identity
    after any later login or signup, of anyone, unless the session has
    expired by then; when the clock does not read later, it resolves to the
    same identity. *)
Theorem sessions_survive_later_logins :
  forall (a : option string) (w : World) (u : UserOut.t),
    fst (get_user_from_token a w) = Ok u ->
    (forall payload,
       (fst (get_user_from_token a (snd (login payload w))) = Ok u
        \/ fst (get_user_from_token a (snd (login payload w)))
           = Raise ExpiredToken)
       /\ (current_time (snd (login payload w)) <= current_time w ->
           fst (get_user_from_token a (snd (login payload w))) = Ok u))
    /\ (forall payload,
          (fst (get_user_from_token a (snd (signup payload w))) = Ok u
           \/ fst (get_user_from_token a (snd (signup payload w)))
              = Raise ExpiredToken)
          /\ (current_time (snd (signup payload w)) <= current_time w ->
              fst (get_user_from_token a (snd (signup payload w))) = Ok u)).
Proof.
  intros a w u H. split; intros payload.
  - destruct (login_world payload w) as [E | [user [_ E]]]; rewrite E.
    + apply (resolve_stable a w w u [] []); try assumption;
        try (now rewrite app_nil_r). intros d [].
    + apply (resolve_stable a w _ u []
               [issued_doc (py_str (UserDoc._id user)) (UserDoc.role user) w]);
        try assumption; try reflexivity.
      * cbn [issued_world db_user_auth]. now rewrite app_nil_r.
      * intros d [].
  - destruct (signup_world_cases payload w) as [E | E]; rewrite E.
    + apply (resolve_stable a w w u [] []); try assumption;
        try (now rewrite app_nil_r). intros d [].
    + apply (resolve_stable a w _ u [signup_user_doc payload w]
               [signup_token_doc payload w]);
        try assumption; try reflexivity.
      intros d [<- | []]. eexists. reflexivity.
Qed.

Lemma sessions_survive_later_logins_witness :
  fst (get_user_from_token (Some "Bearer tokA")
         (snd (login (LoginRequest.Build "ann@x.com" "secret")
                 (world_at 5000 [ann_doc] [ann_token 6000]))))
  = Ok ann_out.
Proof.
  apply (proj1 (sessions_survive_later_logins (Some "Bearer tokA")
                  (world_at 5000 [ann_doc] [ann_token 6000]) ann_out
                  eq_refl)
           (LoginRequest.Build "ann@x.com" "secret")).
  vm_compute. discriminate.
Defined.

(** X11 (lines 176-207): signup and login round-trip.  After a signup with
    a fresh email, a login with that email in any letter case and the same
    password succeeds: it answers with a newly generated token, the role
    and name given at signup and the email in lower case, and one more
    session is stored; a login with a password whose digest differs fails
    with [InvalidCredentials] and stores nothing. *)
Theorem signup_then_login :
  forall (payload : SignupRequest.t) (w : World) (email password : string),
    signup_existing payload w = None ->
    PyStr.lower email = PyStr.lower (SignupRequest.email payload) ->
    (password = SignupRequest.password payload ->
     fst (login (LoginRequest.Build email password)
            (snd (signup payload w)))
     = Ok (AuthResponse.Build
             (entropy w (1 + entropy_reads w)%nat)
             (Role_str (SignupRequest.role payload))
             (SignupRequest.name payload)
             (PyStr.lower (SignupRequest.email payload)))
     /\ List.length
          (db_token (snd (login (LoginRequest.Build email password)
                            (snd (signup payload w)))))
        = (2 + List.length (db_token w))%nat)
    /\ (hash_password password
        <> hash_password (SignupRequest.password payload) ->
        login (LoginRequest.Build email password) (snd (signup payload w))
        = (Raise InvalidCredentials, snd (signup payload w))).
Proof.
  intros payload w email password Hfresh Hmail.
  rewrite (signup_fresh payload w Hfresh). cbn [snd].
  assert (Hu : login_user (LoginRequest.Build email password)
                 (signup_world payload w)
               = Some (signup_user_doc payload w)).
  { unfold login_user. cbn [LoginRequest.email signup_world db_user_auth].
    rewrite Hmail. unfold signup_existing in Hfresh.
    rewrite (find_app_last _ _ _ Hfresh).
    unfold Store.has_email. cbn [signup_user_doc UserDoc.email].
    now rewrite String.eqb_refl. }
  split.
  - intros ->.
    rewrite (login_passed _ _ (signup_user_doc payload w) Hu).
    + split; [reflexivity | ].
      cbn [snd issued_world signup_world db_token].
      rewrite !length_app. simpl. lia.
    + unfold verify_password, UserDoc.get_password_hash.
      cbn [signup_user_doc UserDoc.password_hash LoginRequest.password].
      apply String.eqb_refl.
    + reflexivity.
  - intros Hd. rewrite login_unfold, Hu.
    replace (verify_password _ _) with false; [reflexivity | ].
    symmetry. unfold verify_password, UserDoc.get_password_hash.
    cbn [signup_user_doc UserDoc.password_hash LoginRequest.password].
    now apply String.eqb_neq.
Qed.

Lemma signup_then_login_witness :
  fst (login (LoginRequest.Build "ANN@x.com" "secret")
         (snd (signup ann_request empty_world)))
  = Ok (AuthResponse.Build
          (entropy empty_world (1 + entropy_reads empty_world)%nat)
          (Role_str (SignupRequest.role ann_request))
          (SignupRequest.name ann_request)
          (PyStr.lower (SignupRequest.email ann_request))).
Proof.
  apply (proj1 (signup_then_login ann_request empty_world "ANN@x.com"
                  "secret" eq_refl eq_refl)).
  reflexivity.
Defined.

(** X12 (lines 199-205): the order of the checks in [login].  For a stored
    identity that is deactivated, [login] answers [InactiveAccount] exactly
    when the password is right and [InvalidCredentials] exactly when it is
    wrong, so the deactivation shows only to a caller who knows the
    password; in both cases nothing is written. *)
Theorem inactive_shown_only_with_password :
  forall (payload : LoginRequest.t) (w : World) (user : UserDoc.t),
    login_user payload w = Some user ->
    UserDoc.get_is_active user true = false ->
    (login payload w = (Raise InactiveAccount, w)
       <-> verify_password (LoginRequest.password payload)
             (UserDoc.get_password_hash user "") = true)
    /\ (login payload w = (Raise InvalidCredentials, w)
       <-> verify_password (LoginRequest.password payload)
             (UserDoc.get_password_hash user "") = false).
Proof.
  intros payload w user Hu Ha. rewrite login_unfold, Hu, Ha.
  destruct (verify_password _ _); split; split;
    intros H; try reflexivity; try discriminate H.
Qed.

Lemma inactive_shown_only_with_password_witness :
  login (LoginRequest.Build "dan@x.com" "pw") (world_at 5000 [dan_doc] [])
  = (Raise InactiveAccount, world_at 5000 [dan_doc] []).
Proof.
  apply (proj1 (inactive_shown_only_with_password
                  (LoginRequest.Build "dan@x.com" "pw")
                  (world_at 5000 [dan_doc] []) dan_doc eq_refl eq_refl)).
  vm_compute. reflexivity.
Defined.

(** X13 (lines 83-88): how the gate composes with the resolver.  An error
    of the resolver comes out of the gate unchanged; the gate answers
    [Forbidden] only for a caller that resolved; a caller let through is the
    resolved identity; widening the list of allowed roles keeps every caller
    that was let through; and the empty list lets nobody through. *)
Theorem gate_composition :
  forall (allowed : list string) (a : option string) (w : World),
    (forall e, fst (get_user_from_token a w) = Raise e ->
               fst (guarded allowed a w) = Raise e /\ e <> Forbidden)
    /\ (fst (guarded allowed a w) = Raise Forbidden ->
        exists u, fst (get_user_from_token a w) = Ok u
                  /\ role_in (UserOut.role u) allowed = false)
    /\ (forall u, fst (guarded allowed a w) = Ok u ->
                  fst (get_user_from_token a w) = Ok u
                  /\ role_in (UserOut.role u) allowed = true)
    /\ (forall u wider,
          fst (guarded allowed a w) = Ok u ->
          incl allowed wider ->
          fst (guarded wider a w) = Ok u)
    /\ (forall u, fst (guarded [] a w) <> Ok u).
Proof.
  intros allowed a w.
  assert (G : forall l u, fst (guarded l a w) = Ok u ->
                          fst (get_user_from_token a w) = Ok u
                          /\ role_in (UserOut.role u) l = true).
  { intros l u. rewrite guarded_result.
    destruct (fst (get_user_from_token a w)) as [u' | e]; [ | discriminate].
    unfold require_roles.
    destruct (role_in (UserOut.role u') l) eqn:R; cbn [negb];
      [ | discriminate].
    intros H. injection H as <-. split; [reflexivity | assumption]. }
  split; [ | split; [ | split; [ | split]]].
  - intros e He. rewrite guarded_result, He. split; [reflexivity | ].
    destruct (resolver_errors a w e He) as [detail ->]. discriminate.
  - rewrite guarded_result.
    destruct (fst (get_user_from_token a w)) as [u | e] eqn:E.
    + unfold require_roles.
      destruct (role_in (UserOut.role u) allowed) eqn:R; cbn [negb];
        [discriminate | ].
      intros _. exists u. split; [reflexivity | assumption].
    + intros H. injection H as ->.
      destruct (resolver_errors a w Forbidden E) as [detail D].
      discriminate D.
  - apply G.
  - intros u wider H Hincl. destruct (G allowed u H) as [Hu Hr].
    rewrite guarded_result, Hu. unfold require_roles.
    replace (role_in (UserOut.role u) wider) with true; [reflexivity | ].
    symmetry. apply role_in_spec. apply role_in_spec in Hr.
    destruct Hr as [r [Er Hin]]. exists r. split; [assumption | ].
    now apply Hincl.
  - intros u H. destruct (G [] u H) as [_ Hr].
    destruct (UserOut.role u); discriminate Hr.
Qed.

Lemma gate_composition_witness :
  fst (guarded ["admin"; "receptionist"] (Some "Bearer tokA")
         (world_at 5000 [ann_doc] [ann_token 6000]))
  = Ok ann_out.
Proof.
  apply (proj1 (proj2 (proj2 (proj2
           (gate_composition ["admin"] (Some "Bearer tokA")
              (world_at 5000 [ann_doc] [ann_token 6000]))))) ann_out).
  - reflexivity.
  - intros r [<- | []]. simpl. left. reflexivity.
Defined.

Example doctor_is_forbidden_not_unauthorized :
  fst (guarded ["admin"] (Some "Bearer tokD")
         (world_at 5000 [dan_doc] [dan_token]))
  = Raise Forbidden.
Proof. reflexivity. Qed.

(** ** The protected endpoints *)

Section Endpoints.

Variable isoformat : Z -> string.
Variable utc_isoformat : Z -> string.

(** A handler behind a gate: the gate's error, or the handler's body run
    in the state the resolver has left. *)
Lemma with_guard {B} (roles : list string) (a : option string)
      (k : UserOut.t -> CM B) (c : Clinic) :
  cbind (in_auth (guarded roles a)) k c
  = match fst (guarded roles a (auth c)) with
    | Ok u => k u (resolved a c)
    | Raise e => (Raise e, resolved a c)
    end.
Proof.
  unfold cbind, in_auth, resolved. rewrite guarded_world.
  destruct (fst (guarded roles a (auth c))); reflexivity.
Qed.

Lemma resolved_same_collections (a : option string) (c : Clinic) :
  same_collections c (resolved a c).
Proof.
  unfold same_collections, resolved. cbn.
  destruct (resolver_collections a (auth c)) as [Hu Ht].
  repeat split; assumption.
Qed.

Lemma create_staff_run (payload : StaffCreate.t) (a : option string)
      (c : Clinic) :
  create_staff payload a c
  = match fst (guarded ["admin"] a (auth c)) with
    | Ok u =>
        (Ok (Created.Build
               (py_str (Doc._id (staff_doc payload u (auth (resolved a c)))))
               "Staff created"),
         mkClinic (stamped (auth (resolved a c)))
           (db_staff c ++ [staff_doc payload u (auth (resolved a c))])
           (db_patient c) (db_appointment c))
    | Raise e => (Raise e, resolved a c)
    end.
Proof.
  unfold create_staff. rewrite with_guard.
  destruct (fst (guarded ["admin"] a (auth c))); reflexivity.
Qed.

Lemma create_patient_run (payload : PatientCreate.t) (a : option string)
      (c : Clinic) :
  create_patient payload a c
  = match fst (guarded ["admin"; "receptionist"] a (auth c)) with
    | Ok u =>
        (Ok (Created.Build
               (py_str (Doc._id (patient_doc payload u (auth (resolved a c)))))
               "Patient created"),
         mkClinic (stamped (auth (resolved a c)))
           (db_staff c)
           (db_patient c ++ [patient_doc payload u (auth (resolved a c))])
           (db_appointment c))
    | Raise e => (Raise e, resolved a c)
    end.
Proof.
  unfold create_patient. rewrite with_guard.
  destruct (fst (guarded ["admin"; "receptionist"] a (auth c))); reflexivity.
Qed.

Lemma create_appointment_run (payload : AppointmentCreate.t)
      (a : option string) (c : Clinic) :
  create_appointment payload a c
  = match fst (guarded ["admin"; "receptionist"] a (auth c)) with
    | Ok u =>
        (Ok (Created.Build
               (py_str (Doc._id
                          (appointment_doc payload u (auth (resolved a c)))))
               "Appointment created"),
         mkClinic (stamped (auth (resolved a c)))
           (db_staff c) (db_patient c)
           (db_appointment c
            ++ [appointment_doc payload u (auth (resolved a c))]))
    | Raise e => (Raise e, resolved a c)
    end.
Proof.
  unfold create_appointment. rewrite with_guard.
  destruct (fst (guarded ["admin"; "receptionist"] a (auth c))); reflexivity.
Qed.

Lemma list_staff_run (a : option string) (c : Clinic) :
  list_staff a c
  = match fst (guarded ["admin"] a (auth c)) with
    | Ok u => (Ok (map Doc.view (firstn 100 (db_staff c))), resolved a c)
    | Raise e => (Raise e, resolved a c)
    end.
Proof.
  unfold list_staff. rewrite with_guard.
  destruct (fst (guarded ["admin"] a (auth c))); reflexivity.
Qed.

Lemma list_patients_run (a : option string) (c : Clinic) :
  list_patients a c
  = match fst (guarded ["admin"; "receptionist"; "doctor"] a (auth c)) with
    | Ok u => (Ok (map Doc.view (firstn 200 (db_patient c))), resolved a c)
    | Raise e => (Raise e, resolved a c)
    end.
Proof.
  unfold list_patients. rewrite with_guard.
  destruct (fst (guarded ["admin"; "receptionist"; "doctor"] a (auth c)));
    reflexivity.
Qed.

Lemma list_appointments_run (a : option string) (c : Clinic) :
  list_appointments isoformat a c
  = match fst (guarded ["admin"; "receptionist"; "doctor"] a (auth c)) with
    | Ok u =>
        (Ok (map (view_appointment isoformat)
               (firstn 200 (db_appointment c))), resolved a c)
    | Raise e => (Raise e, resolved a c)
    end.
Proof.
  unfold list_appointments. rewrite with_guard.
  destruct (fst (guarded ["admin"; "receptionist"; "doctor"] a (auth c)));
    reflexivity.
Qed.

Lemma doctor_schedule_run (a : option string) (c : Clinic) :
  doctor_schedule isoformat a c
  = match fst (guarded ["doctor"] a (auth c)) with
    | Ok u =>
        (Ok (map (view_appointment isoformat)
               (firstn 200 (appointments_of (UserOut.id u)
                              (db_appointment c)))), resolved a c)
    | Raise e => (Raise e, resolved a c)
    end.
Proof.
  unfold doctor_schedule. rewrite with_guard.
  destruct (fst (guarded ["doctor"] a (auth c))); reflexivity.
Qed.

Lemma reports_summary_run (a : option string) (c : Clinic) :
  reports_summary utc_isoformat a c
  = match fst (guarded ["admin"] a (auth c)) with
    | Ok u =>
        (Ok (Summary.Build
               (Z.of_nat (List.length (db_patient c)))
               (Z.of_nat (List.length (db_staff c)))
               (Z.of_nat (List.length (db_appointment c)))
               (utc_isoformat (current_time (auth (resolved a c))))),
         mkClinic (tick (auth (resolved a c)))
           (db_staff c) (db_patient c) (db_appointment c))
    | Raise e => (Raise e, resolved a c)
    end.
Proof.
  unfold reports_summary. rewrite with_guard.
  destruct (fst (guarded ["admin"] a (auth c))); reflexivity.
Qed.

(** The gate's verdict on a caller that resolved. *)
Lemma guarded_caller (roles : list string) (a : option string) (c : Clinic)
      (u : UserOut.t) :
  caller a c = Ok u ->
  fst (guarded roles a (auth c)) = require_roles roles u.
Proof. unfold caller. intros H. now rewrite guarded_result, H. Qed.

Lemma role_in_narrower (r : option string) (narrow wide : list string) :
  incl narrow wide -> role_in r wide = false -> role_in r narrow = false.
Proof.
  intros Hincl Hw. destruct (role_in r narrow) eqn:E; [ | reflexivity].
  apply role_in_spec in E. destruct E as [x [Ex Hin]].
  assert (role_in r wide = true) as X.
  { apply role_in_spec. exists x. split; [assumption | now apply Hincl]. }
  rewrite X in Hw. discriminate Hw.
Qed.

Lemma require_roles_outside (narrow : list string) (u : UserOut.t) :
  incl narrow ["admin"; "doctor"; "receptionist"] ->
  role_in (UserOut.role u) ["admin"; "doctor"; "receptionist"] = false ->
  require_roles narrow u = Raise Forbidden.
Proof.
  intros Hincl Hout. unfold require_roles.
  now rewrite (role_in_narrower _ narrow _ Hincl Hout).
Qed.

End Endpoints.

(** X14 (lines 218-293): a request the gate rejects changes nothing.  For
    each of the eight protected handlers, when the gate in front of it
    raises, the handler raises the same error, and no collection, of the
    protected endpoints or of the authentication core, is changed. *)
Theorem rejected_requests_change_nothing :
  forall (isoformat utc_isoformat : Z -> string) (a : option string)
         (c : Clinic) (e : Exn),
    same_collections c (resolved a c)
    /\ (forall payload,
          fst (guarded ["admin"] a (auth c)) = Raise e ->
          create_staff payload a c = (Raise e, resolved a c))
    /\ (fst (guarded ["admin"] a (auth c)) = Raise e ->
        list_staff a c = (Raise e, resolved a c))
    /\ (forall payload,
          fst (guarded ["admin"; "receptionist"] a (auth c)) = Raise e ->
          create_patient payload a c = (Raise e, resolved a c))
    /\ (fst (guarded ["admin"; "receptionist"; "doctor"] a (auth c))
        = Raise e ->
        list_patients a c = (Raise e, resolved a c))
    /\ (forall payload,
          fst (guarded ["admin"; "receptionist"] a (auth c)) = Raise e ->
          create_appointment payload a c = (Raise e, resolved a c))
    /\ (fst (guarded ["admin"; "receptionist"; "doctor"] a (auth c))
        = Raise e ->
        list_appointments isoformat a c = (Raise e, resolved a c))
    /\ (fst (guarded ["doctor"] a (auth c)) = Raise e ->
        doctor_schedule isoformat a c = (Raise e, resolved a c))
    /\ (fst (guarded ["admin"] a (auth c)) = Raise e ->
        reports_summary utc_isoformat a c = (Raise e, resolved a c)).
Proof.
  intros isoformat utc_isoformat a c e.
  split; [apply resolved_same_collections | ].
  split; [intros payload H; now rewrite create_staff_run, H | ].
  split; [intros H; now rewrite list_staff_run, H | ].
  split; [intros payload H; now rewrite create_patient_run, H | ].
  split; [intros H; now rewrite list_patients_run, H | ].
  split; [intros payload H; now rewrite create_appointment_run, H | ].
  split; [intros H; now rewrite list_appointments_run, H | ].
  split; [intros H; now rewrite doctor_schedule_run, H | ].
  intros H; now rewrite reports_summary_run, H.
Qed.

Lemma rejected_requests_change_nothing_witness :
  create_staff new_staff (Some "Bearer tokR") clinic0
  = (Raise Forbidden, resolved (Some "Bearer tokR") clinic0).
Proof.
  apply (proj1 (proj2 (rejected_requests_change_nothing demo_isoformat
                         demo_isoformat
                         (Some "Bearer tokR") clinic0 Forbidden))).
  reflexivity.
Defined.

(** X15 (lines 218-293): who may call what.  For a caller that resolved:
    with a role other than admin, doctor and receptionist (a patient, a
    missing role) every protected handler answers [Forbidden]; an admin is
    let through everywhere but on the doctor's schedule; a receptionist only
    on creating and listing patients and appointments; a doctor only on
    listing patients and appointments and on the schedule. *)
Theorem access_matrix :
  forall (isoformat utc_isoformat : Z -> string) (a : option string)
         (c : Clinic)
         (u : UserOut.t) (ps : StaffCreate.t) (pp : PatientCreate.t)
         (pa : AppointmentCreate.t),
    caller a c = Ok u ->
    (role_in (UserOut.role u) ["admin"; "doctor"; "receptionist"] = false ->
     outcome (create_staff ps a c) = Raise Forbidden
     /\ outcome (list_staff a c) = Raise Forbidden
     /\ outcome (create_patient pp a c) = Raise Forbidden
     /\ outcome (list_patients a c) = Raise Forbidden
     /\ outcome (create_appointment pa a c) = Raise Forbidden
     /\ outcome (list_appointments isoformat a c) = Raise Forbidden
     /\ outcome (doctor_schedule isoformat a c) = Raise Forbidden
     /\ outcome (reports_summary utc_isoformat a c) = Raise Forbidden)
    /\ (UserOut.role u = Some "admin" ->
        outcome (create_staff ps a c) = Ok tt
        /\ outcome (list_staff a c) = Ok tt
        /\ outcome (create_patient pp a c) = Ok tt
        /\ outcome (list_patients a c) = Ok tt
        /\ outcome (create_appointment pa a c) = Ok tt
        /\ outcome (list_appointments isoformat a c) = Ok tt
        /\ outcome (doctor_schedule isoformat a c) = Raise Forbidden
        /\ outcome (reports_summary utc_isoformat a c) = Ok tt)
    /\ (UserOut.role u = Some "receptionist" ->
        outcome (create_staff ps a c) = Raise Forbidden
        /\ outcome (list_staff a c) = Raise Forbidden
        /\ outcome (create_patient pp a c) = Ok tt
        /\ outcome (list_patients a c) = Ok tt
        /\ outcome (create_appointment pa a c) = Ok tt
        /\ outcome (list_appointments isoformat a c) = Ok tt
        /\ outcome (doctor_schedule isoformat a c) = Raise Forbidden
        /\ outcome (reports_summary utc_isoformat a c) = Raise Forbidden)
    /\ (UserOut.role u = Some "doctor" ->
        outcome (create_staff ps a c) = Raise Forbidden
        /\ outcome (list_staff a c) = Raise Forbidden
        /\ outcome (create_patient pp a c) = Raise Forbidden
        /\ outcome (list_patients a c) = Ok tt
        /\ outcome (create_appointment pa a c) = Raise Forbidden
        /\ outcome (list_appointments isoformat a c) = Ok tt
        /\ outcome (doctor_schedule isoformat a c) = Ok tt
        /\ outcome (reports_summary utc_isoformat a c) = Raise Forbidden).
Proof.
  intros isoformat utc_isoformat a c u ps pp pa Hc.
  unfold outcome.
  rewrite create_staff_run, list_staff_run, create_patient_run,
    list_patients_run, create_appointment_run,
    (list_appointments_run isoformat), (doctor_schedule_run isoformat),
    (reports_summary_run utc_isoformat).
  rewrite !(guarded_caller _ a c u Hc).
  split; [ | split; [ | split]].
  - intros Hout.
    rewrite !(require_roles_outside _ u) by
      (try assumption; intros x Hx; simpl in Hx |- *; tauto).
    repeat split.
  - intros Hr. unfold require_roles. rewrite Hr. repeat split.
  - intros Hr. unfold require_roles. rewrite Hr. repeat split.
  - intros Hr. unfold require_roles. rewrite Hr. repeat split.
Qed.

Lemma access_matrix_witness :
  outcome (create_patient new_patient (Some "Bearer tokP") clinic0)
  = Raise Forbidden.
Proof.
  apply (proj1 (access_matrix demo_isoformat demo_isoformat (Some "Bearer tokP") clinic0
                  (user_out pat_doc) new_staff new_patient new_appointment
                  eq_refl)).
  reflexivity.
Defined.

Section Listings.

Lemma in_firstn {A} (n : nat) (l : list A) (x : A) :
  In x (firstn n l) -> In x l.
Proof.
  revert l. induction n as [ | n IH]; intros l H; [destruct H | ].
  destruct l as [ | y l]; [destruct H | ].
  destruct H as [<- | H]; [now left | right; now apply IH].
Qed.

Lemma firstn_app_short {A} (n : nat) (l more : list A) :
  (n <= List.length l)%nat -> firstn n (l ++ more) = firstn n l.
Proof.
  intros H. rewrite firstn_app.
  replace (n - List.length l)%nat with 0%nat by lia.
  simpl. apply app_nil_r.
Qed.

Lemma firstn_app_long {A} (n : nat) (l more : list A) (x : A) :
  (List.length l < n)%nat -> In x (firstn n (l ++ x :: more)).
Proof.
  intros H. rewrite firstn_app, firstn_all2 by lia.
  apply in_or_app. right.
  destruct (n - List.length l)%nat as [ | k] eqn:E; [lia | ].
  simpl. now left.
Qed.

End Listings.



(** X17 (lines 228-233, 246-251, 265-274): what a listing shows.  When the
    gate lets the caller through, a listing answers with the first 100
    staff documents (200 patients, 200 appointments) in stored order, each
    with its identifier as a string under [id]; so it shows every stored
    document exactly when there are no more than that many, and never more.
    A listing changes no collection. *)
Theorem listings_are_bounded_views :
  forall (isoformat : Z -> string) (a : option string) (c : Clinic)
         (u : UserOut.t),
    (fst (guarded ["admin"] a (auth c)) = Ok u ->
     list_staff a c
     = (Ok (map Doc.view (firstn 100 (db_staff c))), resolved a c)
     /\ List.length (map Doc.view (firstn 100 (db_staff c)))
        = Nat.min 100 (List.length (db_staff c)))
    /\ (fst (guarded ["admin"; "receptionist"; "doctor"] a (auth c)) = Ok u ->
        list_patients a c
        = (Ok (map Doc.view (firstn 200 (db_patient c))), resolved a c)
        /\ List.length (map Doc.view (firstn 200 (db_patient c)))
           = Nat.min 200 (List.length (db_patient c)))
    /\ (fst (guarded ["admin"; "receptionist"; "doctor"] a (auth c)) = Ok u ->
        list_appointments isoformat a c
        = (Ok (map (view_appointment isoformat)
                 (firstn 200 (db_appointment c))), resolved a c)
        /\ List.length (map (view_appointment isoformat)
                          (firstn 200 (db_appointment c)))
           = Nat.min 200 (List.length (db_appointment c)))
    /\ same_collections c (resolved a c).
Proof.
  intros isoformat a c u.
  split; [ | split; [ | split]].
  - intros H. rewrite list_staff_run, H.
    split; [reflexivity | ]. now rewrite length_map, length_firstn.
  - intros H. rewrite list_patients_run, H.
    split; [reflexivity | ]. now rewrite length_map, length_firstn.
  - intros H. rewrite (list_appointments_run isoformat), H.
    split; [reflexivity | ]. now rewrite length_map, length_firstn.
  - apply resolved_same_collections.
Qed.

Lemma listings_are_bounded_views_witness :
  list_appointments demo_isoformat (Some "Bearer tokO") clinic0
  = (Ok (map (view_appointment demo_isoformat)
           (firstn 200 (db_appointment clinic0))),
     resolved (Some "Bearer tokO") clinic0).
Proof.
  apply (proj1 (proj2 (proj2 (listings_are_bounded_views demo_isoformat
                                (Some "Bearer tokO") clinic0
                                (user_out dora_doc)))) eq_refl).
Defined.

(** X18 (lines 277-284): a doctor's schedule holds the doctor's own
    appointments only.  When the gate lets the caller through, every item
    answered is a stored appointment whose [doctor_id] is the caller's
    identifier, there are at most 200 items, and when the caller has no more
    than 200 appointments every one of them is answered.  Nothing is
    changed. *)
Theorem doctor_schedule_is_own :
  forall (isoformat : Z -> string) (a : option string) (c : Clinic)
         (u : UserOut.t),
    fst (guarded ["doctor"] a (auth c)) = Ok u ->
    exists items,
      doctor_schedule isoformat a c = (Ok items, resolved a c)
      /\ (List.length items <= 200)%nat
      /\ (forall it, In it items ->
            Appointment.doctor_id (Doc.item it) = UserOut.id u
            /\ exists d, In d (db_appointment c)
                         /\ it = view_appointment isoformat d)
      /\ ((List.length (appointments_of (UserOut.id u) (db_appointment c))
           <= 200)%nat ->
          forall d, In d (db_appointment c) ->
                    Appointment.doctor_id (Doc.body d) = UserOut.id u ->
                    In (view_appointment isoformat d) items)
      /\ same_collections c (resolved a c).
Proof.
  intros isoformat a c u H.
  exists (map (view_appointment isoformat)
            (firstn 200 (appointments_of (UserOut.id u) (db_appointment c)))).
  split; [now rewrite (doctor_schedule_run isoformat), H | ].
  split; [rewrite length_map, length_firstn; lia | ].
  split; [ | split].
  - intros it Hit. apply in_map_iff in Hit. destruct Hit as [d [<- Hd]].
    apply in_firstn in Hd. unfold appointments_of in Hd.
    apply filter_In in Hd. destruct Hd as [Hd Hm].
    apply String.eqb_eq in Hm. split; [exact Hm | ].
    exists d. split; [assumption | reflexivity].
  - intros Hfew d Hd Hm. apply in_map. rewrite firstn_all2 by assumption.
    unfold appointments_of. apply filter_In. split; [assumption | ].
    now apply String.eqb_eq.
  - apply resolved_same_collections.
Qed.

Lemma doctor_schedule_is_own_witness :
  exists items,
    doctor_schedule demo_isoformat (Some "Bearer tokO") clinic0
    = (Ok items, resolved (Some "Bearer tokO") clinic0)
    /\ (List.length items <= 200)%nat
    /\ (forall it, In it items ->
          Appointment.doctor_id (Doc.item it) = UserOut.id (user_out dora_doc)
          /\ exists d, In d (db_appointment clinic0)
                       /\ it = view_appointment demo_isoformat d)
    /\ ((List.length (appointments_of (UserOut.id (user_out dora_doc))
                        (db_appointment clinic0)) <= 200)%nat ->
        forall d, In d (db_appointment clinic0) ->
                  Appointment.doctor_id (Doc.body d)
                  = UserOut.id (user_out dora_doc) ->
                  In (view_appointment demo_isoformat d) items)
    /\ same_collections clinic0 (resolved (Some "Bearer tokO") clinic0).
Proof.
  apply (doctor_schedule_is_own demo_isoformat (Some "Bearer tokO") clinic0
           (user_out dora_doc)).
  reflexivity.
Defined.

Example dora_sees_two_of_three :
  fst (doctor_schedule demo_isoformat (Some "Bearer tokO") clinic0)
  = Ok [view_appointment demo_isoformat (visit "dora" 7000);
        view_appointment demo_isoformat (visit "dora" 7200)].
Proof. reflexivity. Qed.

(** X19 (lines 236-251, 287-293): a created patient is counted, and listed
    while the listing has room.  After a create request that succeeded, a
    report counts one patient more and as many staff and appointments as
    before; a listing shows the new patient, under the identifier the create
    request answered, when fewer than 200 patients were stored before, and
    is the listing of before when 200 or more were: the limit hides every
    patient after the first 200. *)
Theorem created_patient_is_listed_and_counted :
  forall (utc_isoformat : Z -> string) (payload : PatientCreate.t)
         (a : option string) (c c' : Clinic) (r : Created.t),
    create_patient payload a c = (Ok r, c') ->
    (forall a2 u2,
       fst (guarded ["admin"; "receptionist"; "doctor"] a2 (auth c')) = Ok u2 ->
       ((List.length (db_patient c) < 200)%nat ->
        exists items it,
          fst (list_patients a2 c') = Ok items
          /\ In it items
          /\ Doc.id it = Created.id r
          /\ Patient.name (Doc.item it) = PatientCreate.name payload)
       /\ ((200 <= List.length (db_patient c))%nat ->
           fst (list_patients a2 c')
           = Ok (map Doc.view (firstn 200 (db_patient c)))))
    /\ (forall a3 u3,
          fst (guarded ["admin"] a3 (auth c')) = Ok u3 ->
          exists s,
            fst (reports_summary utc_isoformat a3 c') = Ok s
            /\ Summary.patients s = Z.of_nat (List.length (db_patient c)) + 1
            /\ Summary.staff s = Z.of_nat (List.length (db_staff c))
            /\ Summary.appointments s
               = Z.of_nat (List.length (db_appointment c))).
Proof.
  intros utc_isoformat payload a c c' r Hrun.
  rewrite create_patient_run in Hrun.
  destruct (fst (guarded ["admin"; "receptionist"] a (auth c))) as [u | e];
    [ | discriminate Hrun].
  injection Hrun as <- <-.
  split.
  - intros a2 u2 H2. rewrite list_patients_run, H2.
    cbn [fst db_patient]. split.
    + intros Hroom.
      exists (map Doc.view
                (firstn 200
                   (db_patient c
                    ++ [patient_doc payload u (auth (resolved a c))]))),
             (Doc.view (patient_doc payload u (auth (resolved a c)))).
      split; [reflexivity | ]. split; [ | split; reflexivity].
      apply in_map. now apply firstn_app_long.
    + intros Hfull. now rewrite firstn_app_short.
  - intros a3 u3 H3. rewrite (reports_summary_run utc_isoformat), H3.
    eexists. split; [reflexivity | ].
    cbn [Summary.patients Summary.staff Summary.appointments fst
         db_patient db_staff db_appointment].
    rewrite length_app. simpl. repeat split; lia.
Qed.

Lemma created_patient_is_listed_and_counted_witness :
  exists s,
    fst (reports_summary demo_isoformat (Some "Bearer tokA")
           (snd (create_patient new_patient (Some "Bearer tokR") clinic0)))
    = Ok s
    /\ Summary.patients s = Z.of_nat (List.length (db_patient clinic0)) + 1
    /\ Summary.staff s = Z.of_nat (List.length (db_staff clinic0))
    /\ Summary.appointments s
       = Z.of_nat (List.length (db_appointment clinic0)).
Proof.
  apply (proj2 (created_patient_is_listed_and_counted demo_isoformat
                  new_patient (Some "Bearer tokR") clinic0
                  (snd (create_patient new_patient (Some "Bearer tokR")
                          clinic0))
                  (Created.Build (demo_oid 0) "Patient created")
                  eq_refl)
           (Some "Bearer tokA") ann_out).
  reflexivity.
Defined.

(** ** Issue, then resolve *)

(** X20 (lines 32-80, 176-194): the token of a signup resolves to the
    identity the signup created.  For a signup with a fresh email and any
    role, with the outside inputs of a real run, presenting the returned
    token right away resolves to the new identity: its identifier as a
    string, the name, the email in lower case, the role of the request, and
    active; and a gate lets it through exactly when the role of the request
    is in the gate's list. *)
Theorem signup_token_resolves :
  forall (payload : SignupRequest.t) (w : World) (allowed : list string),
    signup_existing payload w = None ->
    outside_inputs_fresh w ->
    fst (signup payload w)
    = Ok (AuthResponse.Build (entropy w (entropy_reads w))
            (Role_str (SignupRequest.role payload))
            (SignupRequest.name payload) (SignupRequest.email payload))
    /\ fst (get_user_from_token
              (Some ("Bearer " ++ entropy w (entropy_reads w)))
              (snd (signup payload w)))
       = Ok (UserOut.Build
               (new_oid w (oid_reads w))
               (Some (SignupRequest.name payload))
               (Some (PyStr.lower (SignupRequest.email payload)))
               (Some (Role_str (SignupRequest.role payload)))
               true)
    /\ ((exists u,
           fst (guarded allowed
                  (Some ("Bearer " ++ entropy w (entropy_reads w)))
                  (snd (signup payload w))) = Ok u)
        <-> In (Role_str (SignupRequest.role payload)) allowed).
Proof.
  intros payload w allowed Hfresh Hin.
  rewrite (signup_fresh payload w Hfresh). cbn [fst snd].
  split; [reflexivity | ].
  rewrite guarded_result.
  rewrite (signup_then_resolve payload w Hin). cbn [fst].
  split; [reflexivity | ].
  unfold require_roles. cbn [UserOut.role role_in].
  destruct (existsb (String.eqb (Role_str (SignupRequest.role payload)))
              allowed) eqn:E; cbn [negb].
  - split; [ | intros _; eexists; reflexivity].
    intros _. apply existsb_exists in E. destruct E as [x [Hx Ex]].
    apply String.eqb_eq in Ex. now subst x.
  - split; [intros [u H]; discriminate H | ].
    intros H. assert (X : existsb (String.eqb
                            (Role_str (SignupRequest.role payload))) allowed
                          = true).
    { apply existsb_exists. eexists. split; [exact H | ].
      apply String.eqb_refl. }
    rewrite X in E. discriminate E.
Qed.

Lemma signup_token_resolves_witness :
  fst (get_user_from_token
         (Some ("Bearer " ++ entropy empty_world (entropy_reads empty_world)))
         (snd (signup bob_request empty_world)))
  = Ok (UserOut.Build
          (new_oid empty_world (oid_reads empty_world))
          (Some (SignupRequest.name bob_request))
          (Some (PyStr.lower (SignupRequest.email bob_request)))
          (Some (Role_str (SignupRequest.role bob_request)))
          true).
Proof.
  refine (proj1 (proj2 (signup_token_resolves bob_request empty_world []
                          eq_refl _))).
  unfold outside_inputs_fresh. repeat split; try reflexivity.
  - discriminate.
  - vm_compute. discriminate.
Defined.

(** X21 (lines 32-80, 197-207): the token of a login resolves to the
    identity that logged in.  When [login] passes its three checks, the
    generated token is a non-empty string without whitespace that no stored
    session carries, the identity lookup by the string form of the
    identity's identifier leads to that identity, and the clock has not
    moved past seven days, presenting the token resolves to the view of
    that identity. *)
Theorem login_token_resolves :
  forall (payload : LoginRequest.t) (w : World) (user : UserDoc.t),
    login_user payload w = Some user ->
    verify_password (LoginRequest.password payload)
      (UserDoc.get_password_hash user "") = true ->
    UserDoc.get_is_active user true = true ->
    entropy w (entropy_reads w) <> "" ->
    no_space (entropy w (entropy_reads w)) = true ->
    find (Store.has_token (entropy w (entropy_reads w))) (db_token w) = None ->
    found_by_string (py_str (UserDoc._id user)) user (db_user_auth w) ->
    clock w (2 + clock_reads w)%nat <= clock w (clock_reads w) + seven_days ->
    fst (get_user_from_token
           (Some ("Bearer " ++ entropy w (entropy_reads w)))
           (snd (login payload w)))
    = Ok (user_out user).
Proof.
  intros payload w user Hu Hv Ha Hne Hns Hfresh Hfound Hclk.
  rewrite (login_passed payload w user Hu Hv Ha). cbn [snd].
  assert (Hs : PyStr.split ("Bearer " ++ entropy w (entropy_reads w))
               = ["Bearer"; entropy w (entropy_reads w)]).
  { apply (split_two_parts "Bearer" _ " "%char);
      try assumption; try reflexivity. discriminate. }
  rewrite (get_user_from_token_parsed _ _ _ _ Hs eq_refl).
  rewrite (resolve_token_with_expiry _ _
             (issued_doc (py_str (UserDoc._id user)) (UserDoc.role user) w)
             (clock w (clock_reads w) + seven_days)).
  - cbn [fst].
    replace (_ <? current_time _) with false.
    2:{ symmetry. apply Z.ltb_ge. exact Hclk. }
    cbn [issued_world db_user_auth].
    destruct (identity_of_cases
                (issued_doc (py_str (UserDoc._id user)) (UserDoc.role user) w)
                (db_user_auth w))
      as [[x [F E]] | [[F [oid [x [O [G E]]]]] | [F [N E]]]];
      cbn [issued_doc TokenDoc.user_id] in F, E |- *; rewrite E.
    + destruct Hfound as [F' | [F' _]]; rewrite F in F';
        [injection F' as <-; reflexivity | discriminate F'].
    + cbn [issued_doc TokenDoc.user_id] in O.
      destruct Hfound as [F' | [_ [oid' [O' G']]]].
      * rewrite F in F'. discriminate F'.
      * rewrite O in O'. injection O' as <-. rewrite G in G'.
        injection G' as <-. reflexivity.
    + cbn [issued_doc TokenDoc.user_id] in N.
      destruct Hfound as [F' | [_ [oid' [O' G']]]].
      * rewrite F in F'. discriminate F'.
      * rewrite (N oid' O') in G'. discriminate G'.
  - cbn [issued_world db_token]. rewrite (find_app_last _ _ _ Hfresh).
    unfold Store.has_token. cbn [issued_doc TokenDoc.token].
    now rewrite String.eqb_refl.
  - reflexivity.
Qed.

Lemma login_token_resolves_witness :
  fst (get_user_from_token
         (Some ("Bearer " ++ entropy clinic_world (entropy_reads clinic_world)))
         (snd (login (LoginRequest.Build "ANN@x.com" "secret") clinic_world)))
  = Ok (user_out ann_doc).
Proof.
  apply (login_token_resolves (LoginRequest.Build "ANN@x.com" "secret")
           clinic_world ann_doc).
  - reflexivity.
  - vm_compute. reflexivity.
  - reflexivity.
  - discriminate.
  - reflexivity.
  - reflexivity.
  - right. split; [reflexivity | ].
    exists (IdOid "64b0c0ffee00000000000000"). split; reflexivity.
  - vm_compute. discriminate.
Defined.
